(** * Notification dispatch and delivery tracking

    A shallow embedding of [NotificationsService]
    (src/notifications/notifications.service.ts) together with the two
    TypeORM repositories it talks to, and the properties of the service
    that the specification states.

    Conventions of the embedding:
    - a table is a finite map from its primary key to the stored entity;
      an entity read from a table carries the key as its [id]; an id is
      a string, taken in the one spelling in which the database returns
      it, and the examples write ids symbolically;
    - a JS [Date] is the number of milliseconds since the epoch, and a
      date string of a request is taken as already parsed;
    - the system clock is an oracle: every [Date.now()] or [new Date()]
      consumes one reading, so that two readings inside one call may
      differ;
    - [setTimeout] callbacks are queued in the world and run by a step
      function of their own, never inside the call that queued them;
    - an exception aborts the call and keeps the world as it was at the
      [throw];
    - a statement the database refuses writes nothing and raises TypeORM's
      [QueryFailedError];
    - a JS number that is not a count is given by its exact value (a
      rational) where only its being a whole number in a range matters,
      and is an IEEE 754 double where the service computes with it. *)

From stdpp Require Import gmap strings list fin_maps pretty.
From Stdlib Require Import ZArith QArith Qround Qabs Lia Lqa Floats.

Open Scope string_scope.
Open Scope Z_scope.

(** ** Enumerations (src/entities/notification.entity.ts, dto/notification.dto.ts) *)

Inductive NotificationType := EMAIL | PUSH | SMS | IN_APP.

Inductive NotificationStatus := PENDING | SENT | DELIVERED | FAILED | BOUNCED.

Inductive NotificationPriority := LOW | NORMAL | HIGH | URGENT.

#[global] Instance NotificationType_eq_dec : EqDecision NotificationType.
Proof. solve_decision. Defined.

#[global] Instance NotificationStatus_eq_dec : EqDecision NotificationStatus.
Proof. solve_decision. Defined.

#[global] Instance NotificationPriority_eq_dec : EqDecision NotificationPriority.
Proof. solve_decision. Defined.

(** The string value of each enum member. *)
Definition type_value (t : NotificationType) : string :=
  match t with
  | EMAIL => "email" | PUSH => "push" | SMS => "sms" | IN_APP => "in_app"
  end.

Definition status_value (s : NotificationStatus) : string :=
  match s with
  | PENDING => "pending" | SENT => "sent" | DELIVERED => "delivered"
  | FAILED => "failed" | BOUNCED => "bounced"
  end.

Definition priority_value (p : NotificationPriority) : string :=
  match p with
  | LOW => "low" | NORMAL => "normal" | HIGH => "high" | URGENT => "urgent"
  end.

(** The DTO and the entity declare the same enums twice; the service maps
    one to the other member by member. *)
Definition mapNotificationType (dtoType : NotificationType) : NotificationType :=
  match dtoType with
  | EMAIL => EMAIL | PUSH => PUSH | SMS => SMS | IN_APP => IN_APP
  end.

Definition mapNotificationStatus (dtoStatus : NotificationStatus) : NotificationStatus :=
  match dtoStatus with
  | PENDING => PENDING | SENT => SENT | DELIVERED => DELIVERED
  | FAILED => FAILED | BOUNCED => BOUNCED
  end.

(** ** Payload values

    [payload] is a [Record<string, any>] stored as jsonb; the scalar JSON
    values are enough for what the service itself writes into it. *)
Inductive JsonValue :=
| JNull
| JBool (b : bool)
| JNumber (z : Z)
| JString (s : string).

#[global] Instance JsonValue_eq_dec : EqDecision JsonValue.
Proof. solve_decision. Defined.

(** ** Entities *)

Module User.

Record t := { id : string; email : string }.

Definition set_id (v : string) (u : t) : t := {| id := v; email := email u |}.

End User.

Module Notification.

Record t := {
  id : string;
  recipient_id : string;
  type : NotificationType;
  template : string;
  subject : string;
  content : string;
  payload : gmap string JsonValue;
  status : NotificationStatus;
  external_id : option string;
  error_message : option string;
  retry_count : Z;
  sent_at : option Z;
  delivered_at : option Z;
  opened_at : option Z;
  clicked_at : option Z;
  created_at : Z;
  updated_at : Z
}.

Definition set_id (v : string) (n : t) : t :=
  {| id := v; recipient_id := recipient_id n; type := type n;
     template := template n; subject := subject n; content := content n;
     payload := payload n; status := status n; external_id := external_id n;
     error_message := error_message n; retry_count := retry_count n;
     sent_at := sent_at n; delivered_at := delivered_at n;
     opened_at := opened_at n; clicked_at := clicked_at n;
     created_at := created_at n; updated_at := updated_at n |}.

Definition set_status (v : NotificationStatus) (n : t) : t :=
  {| id := id n; recipient_id := recipient_id n; type := type n;
     template := template n; subject := subject n; content := content n;
     payload := payload n; status := v; external_id := external_id n;
     error_message := error_message n; retry_count := retry_count n;
     sent_at := sent_at n; delivered_at := delivered_at n;
     opened_at := opened_at n; clicked_at := clicked_at n;
     created_at := created_at n; updated_at := updated_at n |}.

Definition set_external_id (v : option string) (n : t) : t :=
  {| id := id n; recipient_id := recipient_id n; type := type n;
     template := template n; subject := subject n; content := content n;
     payload := payload n; status := status n; external_id := v;
     error_message := error_message n; retry_count := retry_count n;
     sent_at := sent_at n; delivered_at := delivered_at n;
     opened_at := opened_at n; clicked_at := clicked_at n;
     created_at := created_at n; updated_at := updated_at n |}.

Definition set_error_message (v : option string) (n : t) : t :=
  {| id := id n; recipient_id := recipient_id n; type := type n;
     template := template n; subject := subject n; content := content n;
     payload := payload n; status := status n; external_id := external_id n;
     error_message := v; retry_count := retry_count n; sent_at := sent_at n;
     delivered_at := delivered_at n; opened_at := opened_at n;
     clicked_at := clicked_at n; created_at := created_at n;
     updated_at := updated_at n |}.

Definition set_retry_count (v : Z) (n : t) : t :=
  {| id := id n; recipient_id := recipient_id n; type := type n;
     template := template n; subject := subject n; content := content n;
     payload := payload n; status := status n; external_id := external_id n;
     error_message := error_message n; retry_count := v;
     sent_at := sent_at n; delivered_at := delivered_at n;
     opened_at := opened_at n; clicked_at := clicked_at n;
     created_at := created_at n; updated_at := updated_at n |}.

Definition set_sent_at (v : option Z) (n : t) : t :=
  {| id := id n; recipient_id := recipient_id n; type := type n;
     template := template n; subject := subject n; content := content n;
     payload := payload n; status := status n; external_id := external_id n;
     error_message := error_message n; retry_count := retry_count n;
     sent_at := v; delivered_at := delivered_at n; opened_at := opened_at n;
     clicked_at := clicked_at n; created_at := created_at n;
     updated_at := updated_at n |}.

Definition set_delivered_at (v : option Z) (n : t) : t :=
  {| id := id n; recipient_id := recipient_id n; type := type n;
     template := template n; subject := subject n; content := content n;
     payload := payload n; status := status n; external_id := external_id n;
     error_message := error_message n; retry_count := retry_count n;
     sent_at := sent_at n; delivered_at := v; opened_at := opened_at n;
     clicked_at := clicked_at n; created_at := created_at n;
     updated_at := updated_at n |}.

Definition set_opened_at (v : option Z) (n : t) : t :=
  {| id := id n; recipient_id := recipient_id n; type := type n;
     template := template n; subject := subject n; content := content n;
     payload := payload n; status := status n; external_id := external_id n;
     error_message := error_message n; retry_count := retry_count n;
     sent_at := sent_at n; delivered_at := delivered_at n; opened_at := v;
     clicked_at := clicked_at n; created_at := created_at n;
     updated_at := updated_at n |}.

Definition set_clicked_at (v : option Z) (n : t) : t :=
  {| id := id n; recipient_id := recipient_id n; type := type n;
     template := template n; subject := subject n; content := content n;
     payload := payload n; status := status n; external_id := external_id n;
     error_message := error_message n; retry_count := retry_count n;
     sent_at := sent_at n; delivered_at := delivered_at n;
     opened_at := opened_at n; clicked_at := v; created_at := created_at n;
     updated_at := updated_at n |}.

Definition set_created_at (v : Z) (n : t) : t :=
  {| id := id n; recipient_id := recipient_id n; type := type n;
     template := template n; subject := subject n; content := content n;
     payload := payload n; status := status n; external_id := external_id n;
     error_message := error_message n; retry_count := retry_count n;
     sent_at := sent_at n; delivered_at := delivered_at n;
     opened_at := opened_at n; clicked_at := clicked_at n; created_at := v;
     updated_at := updated_at n |}.

Definition set_updated_at (v : Z) (n : t) : t :=
  {| id := id n; recipient_id := recipient_id n; type := type n;
     template := template n; subject := subject n; content := content n;
     payload := payload n; status := status n; external_id := external_id n;
     error_message := error_message n; retry_count := retry_count n;
     sent_at := sent_at n; delivered_at := delivered_at n;
     opened_at := opened_at n; clicked_at := clicked_at n;
     created_at := created_at n; updated_at := v |}.

End Notification.

#[global] Instance Notification_eq_dec : EqDecision Notification.t.
Proof. solve_decision. Defined.

(** ** The world the service runs in *)

(** What a call can end with instead of a result: the exceptions the
    service throws (from @nestjs/common), and the error of the ORM when
    the database refuses a statement. *)
Inductive Exception :=
| NotFoundException (message : string)
| BadRequestException (message : string)
| QueryFailedError.

(** A pending [setTimeout] callback of [processNotificationAsync]: the
    outer one holds a notification id, the inner one holds the entity
    object the outer callback loaded and changed. *)
Inductive Timer :=
| DeliveryAttempt (notificationId : string)
| DeliveryConfirmation (notification : Notification.t).

Record World := {
  notifications : gmap string Notification.t;
  users : gmap string User.t;
  clock : nat -> Z;
  clock_reads : nat;
  timers : list Timer
}.

Definition set_notifications (v : gmap string Notification.t) (w : World) : World :=
  {| notifications := v; users := users w; clock := clock w;
     clock_reads := clock_reads w; timers := timers w |}.

Definition set_clock_reads (v : nat) (w : World) : World :=
  {| notifications := notifications w; users := users w; clock := clock w;
     clock_reads := v; timers := timers w |}.

Definition set_timers (v : list Timer) (w : World) : World :=
  {| notifications := notifications w; users := users w; clock := clock w;
     clock_reads := clock_reads w; timers := v |}.

(** ** State and exception monad *)

Definition Service (A : Type) : Type := World -> (Exception + A) * World.

Definition ret {A : Type} (a : A) : Service A := fun w => (inr a, w).

Definition throw {A : Type} (e : Exception) : Service A := fun w => (inl e, w).

Definition bind {A B : Type} (m : Service A) (k : A -> Service B) : Service B :=
  fun w =>
    match m w with
    | (inl e, w') => (inl e, w')
    | (inr a, w') => k a w'
    end.

Notation "'let*' x ':=' m 'in' k" := (bind m (fun x => k))
  (at level 10, x name, m at level 100, k at level 200).

Notation "'do' m 'in' k" := (bind m (fun _ => k))
  (at level 10, m at level 100, k at level 200).

Fixpoint mapM {A B : Type} (f : A -> Service B) (l : list A) : Service (list B) :=
  match l with
  | [] => ret []
  | a :: l' => let* b := f a in let* bs := mapM f l' in ret (b :: bs)
  end.

Fixpoint forEach {A : Type} (f : A -> Service unit) (l : list A) : Service unit :=
  match l with
  | [] => ret tt
  | a :: l' => do f a in forEach f l'
  end.

(** ** Clock and timers *)

(** [Date.now()] and [new Date()]: the next reading of the clock. *)
Definition Date_now : Service Z :=
  fun w => (inr (clock w (clock_reads w)), set_clock_reads (S (clock_reads w)) w).

Definition setTimeout (t : Timer) : Service unit :=
  fun w => (inr tt, set_timers (timers w ++ [t]) w).

(** ** Repositories (TypeORM) *)

(** [userRepository.findOne({ where: { id } })]. *)
Definition userRepository_findOne (id : string) : Service (option User.t) :=
  fun w => (inr (User.set_id id <$> users w !! id), w).

(** [userRepository.find({ where: { id: In(ids) } })]: every user whose
    key is among [ids], once each, in the order of the table. (The uuid
    column also finds a user under another spelling of its id, in upper
    case; a request is taken to spell ids as the database does.) *)
Definition userRepository_find_In (ids : list string) : Service (list User.t) :=
  fun w =>
    (inr ((fun kv => User.set_id kv.1 kv.2) <$>
            filter (fun kv : string * User.t => kv.1 ∈ ids) (map_to_list (users w))),
     w).

(** [findOne] and [getOne] on the notification table: the row with primary
    key [id], if it also satisfies the remaining conditions [cond]. *)
Definition notificationRepository_findOne
    (id : string) (cond : Notification.t -> bool) : Service (option Notification.t) :=
  fun w =>
    (inr (match Notification.set_id id <$> notifications w !! id with
          | Some n => if cond n then Some n else None
          | None => None
          end),
     w).

(** [save] of an entity that has no primary key yet: the database assigns
    a fresh uuid and the creation and update timestamps. The columns the
    entity leaves undefined take their defaults. *)
Definition notificationRepository_insert (n : Notification.t) : Service Notification.t :=
  fun w =>
    let k : string := fresh (dom (notifications w)) in
    let now := clock w (clock_reads w) in
    let n' := Notification.set_id k
                (Notification.set_created_at now (Notification.set_updated_at now n)) in
    (inr n',
     set_clock_reads (S (clock_reads w)) (set_notifications (<[k := n']> (notifications w)) w)).

(** The column types of the entity declaration that matter to a [save]
    after creation: [retry_count] is an [int] (32 bits), [external_id] a
    [varchar(255)] and [error_message] a [text], and no text holds the
    zero character. One [ascii] stands for one character. A text longer
    than its [varchar] is refused here also when all that exceeds the
    length is spaces, which the database cuts off instead: what is
    stated of an accepted update below is stated of updates within the
    length. The columns that are written once, at creation, are not
    checked. *)
Definition int_column (z : Z) : bool := bool_decide (-2147483648 <= z <= 2147483647).

Fixpoint text_column (s : string) : bool :=
  match s with
  | EmptyString => true
  | String c s' => negb (bool_decide (c = Ascii.zero)) && text_column s'
  end.

Definition varchar_column (n : nat) (s : string) : bool :=
  bool_decide (String.length s <= n)%nat && text_column s.

(** The UPDATE of a [save] writes the columns of the entity [n] that
    differ from the row [stored]; the database accepts it when every
    value it writes fits its column. *)
Definition update_accepted (stored n : Notification.t) : bool :=
  (bool_decide (Notification.retry_count n = Notification.retry_count stored)
   || int_column (Notification.retry_count n))
  && (bool_decide (Notification.external_id n = Notification.external_id stored)
      || from_option (varchar_column 255) true (Notification.external_id n))
  && (bool_decide (Notification.error_message n = Notification.error_message stored)
      || from_option text_column true (Notification.error_message n)).

(** The INSERT of a [save] writes every column. *)
Definition insert_accepted (n : Notification.t) : bool :=
  int_column (Notification.retry_count n)
  && from_option (varchar_column 255) true (Notification.external_id n)
  && from_option text_column true (Notification.error_message n).

(** [save] of a loaded entity: nothing is written when no column differs
    from the stored row; otherwise the columns that differ are written
    and [updated_at] stamped, unless the database refuses the statement.
    An entity whose row has disappeared is inserted as it is. *)
Definition notificationRepository_save (n : Notification.t) : Service Notification.t :=
  fun w =>
    let k := Notification.id n in
    match notifications w !! k with
    | Some stored =>
        if decide (Notification.set_id k stored = n) then (inr n, w)
        else if update_accepted stored n then
          let n' := Notification.set_updated_at (clock w (clock_reads w)) n in
          (inr n',
           set_clock_reads (S (clock_reads w))
             (set_notifications (<[k := n']> (notifications w)) w))
        else (inl QueryFailedError, w)
    | None =>
        if insert_accepted n
        then (inr n, set_notifications (<[k := n]> (notifications w)) w)
        else (inl QueryFailedError, w)
    end.

(** [remove(entity)]. *)
Definition notificationRepository_remove (n : Notification.t) : Service unit :=
  fun w => (inr tt, set_notifications (delete (Notification.id n) (notifications w)) w).

(** The rows a [getCount], a grouped count or an [UPDATE ... WHERE] ranges
    over: the entities of the table that satisfy [cond]. *)
Definition rows_where (cond : Notification.t -> bool) (w : World) : list Notification.t :=
  filter (fun n => cond n = true)
    ((fun kv => Notification.set_id kv.1 kv.2) <$> map_to_list (notifications w)).

Definition notificationRepository_count (cond : Notification.t -> bool) : Service Z :=
  fun w => (inr (Z.of_nat (length (rows_where cond w))), w).

(** ** Request and response objects (dto/notification.dto.ts) *)

Module CreateNotificationDto.

Record t := {
  recipient_id : string;
  type : NotificationType;
  template : string;
  subject : string;
  content : string;
  payload : option (gmap string JsonValue);
  priority : option NotificationPriority;
  scheduled_at : option string
}.

End CreateNotificationDto.

Module BulkNotificationDto.

Record t := {
  recipient_ids : list string;
  type : NotificationType;
  template : string;
  subject : string;
  content : string;
  payload : option (gmap string JsonValue);
  priority : option NotificationPriority
}.

End BulkNotificationDto.

(** A field of a request body that the validation takes as optional:
    [@IsOptional()] lets [undefined] and [null] through unchecked. *)
Inductive Field (A : Type) :=
| Undefined
| Null
| Given (value : A).

Arguments Undefined {A}.
Arguments Null {A}.
Arguments Given {A} value.

(** What a field holds when it is not [undefined]: [null] or a value. *)
Definition defined {A : Type} (field : Field A) : option (option A) :=
  match field with
  | Undefined => None
  | Null => Some None
  | Given value => Some (Some value)
  end.

(** A date string of a request stands for what [new Date(string)] reads
    from it: an instant the timestamp column can hold, or none (an
    Invalid Date, or an instant out of the range of the column). *)
Definition DateString : Type := option Z.

Module UpdateNotificationDto.

Record t := {
  status : Field NotificationStatus;
  external_id : Field string;
  error_message : Field string;
  retry_count : Field Q;
  sent_at : Field DateString;
  delivered_at : Field DateString;
  opened_at : Field DateString;
  clicked_at : Field DateString
}.

End UpdateNotificationDto.

(** What [transformNotificationToDto] returns: every column of the entity
    (enum members mapped back one to one, timestamps as ISO strings of the
    same instants) and the derived [is_read]. *)
Module NotificationResponseDto.

Record t := { notification : Notification.t; is_read : bool }.

End NotificationResponseDto.

Module BulkResult.

Record t := {
  notifications : list NotificationResponseDto.t;
  total_created : Z;
  failed_recipients : list string
}.

End BulkResult.

(** ** JavaScript truthiness *)

(** A string is truthy unless it is empty. *)
Definition truthy (s : string) : bool := bool_decide (s ≠ "").

(** [x || 0] on a number that may be undefined. *)
Definition or_zero (o : option Z) : Z :=
  match o with
  | Some z => if decide (z = 0) then 0 else z
  | None => 0
  end.

(** [new Date(value)] for [null] or a date string: [null] gives the
    epoch. *)
Definition new_Date (value : option DateString) : DateString :=
  match value with
  | None => Some 0
  | Some d => d
  end.

(** The whole number a JS number is, if it is one. *)
Definition whole_number (x : Q) : option Z :=
  if decide (Qden (Qred x) = 1%positive) then Some (Qnum (Qred x)) else None.

(** [if (dto.field !== undefined) entity.field = value]: [value] is what
    the right-hand side makes of the field, [None] when the column of the
    entity has no such value. The entity object then carries a value that
    no row holds, and the database refuses its [save]: an entity object
    to be saved is [None] from there on. *)
Definition assign_if_defined {A B : Type}
    (field : Field A) (value : option A -> option B)
    (set : B -> Notification.t -> Notification.t)
    (entity : option Notification.t) : option Notification.t :=
  match defined field with
  | None => entity
  | Some v =>
      match value v with
      | Some b => set b <$> entity
      | None => None
      end
  end.

(** ** NotificationsService *)

Definition transformNotificationToDto (n : Notification.t) : NotificationResponseDto.t :=
  {| NotificationResponseDto.notification := n;
     NotificationResponseDto.is_read := bool_decide (is_Some (Notification.opened_at n)) |}.

Definition processNotificationAsync (notificationId : string) : Service unit :=
  setTimeout (DeliveryAttempt notificationId).

(** The callbacks of [processNotificationAsync]. The inner callback works
    on the entity object of the outer one, as the outer [save] left it. *)
Definition runTimer (t : Timer) : Service unit :=
  match t with
  | DeliveryAttempt notificationId =>
      let* found := notificationRepository_findOne notificationId (fun _ => true) in
      match found with
      | Some n =>
          if decide (Notification.status n = PENDING) then
            let* now := Date_now in
            let* saved :=
              notificationRepository_save
                (Notification.set_sent_at (Some now) (Notification.set_status SENT n)) in
            setTimeout (DeliveryConfirmation saved)
          else ret tt
      | None => ret tt
      end
  | DeliveryConfirmation n =>
      let* now := Date_now in
      let* saved :=
        notificationRepository_save
          (Notification.set_delivered_at (Some now) (Notification.set_status DELIVERED n)) in
      ret tt
  end.

(** The payload [createNotification] stores. *)
Definition create_payload (createDto : CreateNotificationDto.t) : gmap string JsonValue :=
  let p0 := default ∅ (CreateNotificationDto.payload createDto) in
  let p1 :=
    match CreateNotificationDto.priority createDto with
    | Some p => <["priority" := JString (priority_value p)]> p0
    | None => p0
    end in
  match CreateNotificationDto.scheduled_at createDto with
  | Some s => if truthy s then <["scheduled_at" := JString s]> p1 else p1
  | None => p1
  end.

Definition createNotification (createDto : CreateNotificationDto.t)
  : Service NotificationResponseDto.t :=
  let* recipient := userRepository_findOne (CreateNotificationDto.recipient_id createDto) in
  match recipient with
  | None => throw (NotFoundException "Recipient user not found")
  | Some _ =>
      let notification :=
        {| Notification.id := "";
           Notification.recipient_id := CreateNotificationDto.recipient_id createDto;
           Notification.type := mapNotificationType (CreateNotificationDto.type createDto);
           Notification.template := CreateNotificationDto.template createDto;
           Notification.subject := CreateNotificationDto.subject createDto;
           Notification.content := CreateNotificationDto.content createDto;
           Notification.payload := create_payload createDto;
           Notification.status := PENDING;
           Notification.external_id := None;
           Notification.error_message := None;
           Notification.retry_count := 0;
           Notification.sent_at := None;
           Notification.delivered_at := None;
           Notification.opened_at := None;
           Notification.clicked_at := None;
           Notification.created_at := 0;
           Notification.updated_at := 0 |} in
      let* savedNotification := notificationRepository_insert notification in
      do processNotificationAsync (Notification.id savedNotification) in
      ret (transformNotificationToDto savedNotification)
  end.

(** The entity [createBulkNotifications] builds for one found recipient,
    [now] being what [Date.now()] returned. *)
Definition bulk_notification (bulkDto : BulkNotificationDto.t) (recipientId : string)
    (now : Z) : Notification.t :=
  {| Notification.id := "";
     Notification.recipient_id := recipientId;
     Notification.type := mapNotificationType (BulkNotificationDto.type bulkDto);
     Notification.template := BulkNotificationDto.template bulkDto;
     Notification.subject := BulkNotificationDto.subject bulkDto;
     Notification.content := BulkNotificationDto.content bulkDto;
     Notification.payload :=
       <["bulk_id" := JString ("bulk_" +:+ pretty now)]>
         (<["priority" :=
              JString (priority_value
                         (default NORMAL (BulkNotificationDto.priority bulkDto)))]>
            (default ∅ (BulkNotificationDto.payload bulkDto)));
     Notification.status := PENDING;
     Notification.external_id := None;
     Notification.error_message := None;
     Notification.retry_count := 0;
     Notification.sent_at := None;
     Notification.delivered_at := None;
     Notification.opened_at := None;
     Notification.clicked_at := None;
     Notification.created_at := 0;
     Notification.updated_at := 0 |}.

(** One iteration of the loop of [createBulkNotifications]: [Date.now()]
    is read inside the loop body. *)
Definition bulk_entity (bulkDto : BulkNotificationDto.t) (recipientId : string)
  : Service Notification.t :=
  let* now := Date_now in
  ret (bulk_notification bulkDto recipientId now).

Definition createBulkNotifications (bulkDto : BulkNotificationDto.t)
  : Service BulkResult.t :=
  let* recipients := userRepository_find_In (BulkNotificationDto.recipient_ids bulkDto) in
  let foundRecipientIds := User.id <$> recipients in
  let failedRecipientIds :=
    filter (fun id => id ∉ foundRecipientIds) (BulkNotificationDto.recipient_ids bulkDto) in
  let* notifications := mapM (bulk_entity bulkDto) foundRecipientIds in
  let* savedNotifications := mapM notificationRepository_insert notifications in
  do forEach (fun n => processNotificationAsync (Notification.id n)) savedNotifications in
  ret {| BulkResult.notifications := transformNotificationToDto <$> savedNotifications;
         BulkResult.total_created := Z.of_nat (length savedNotifications);
         BulkResult.failed_recipients := failedRecipientIds |}.

(** The ownership condition of [getNotificationById], [deleteNotification]
    and [getNotificationStats]: applied only when [userId] is given. *)
Definition owned_by (userId : option string) (n : Notification.t) : bool :=
  match userId with
  | Some u => if truthy u then bool_decide (Notification.recipient_id n = u) else true
  | None => true
  end.

Definition getNotificationById (notificationId : string) (userId : option string)
  : Service NotificationResponseDto.t :=
  let* found := notificationRepository_findOne notificationId (owned_by userId) in
  match found with
  | None => throw (NotFoundException "Notification not found or access denied")
  | Some notification => ret (transformNotificationToDto notification)
  end.

(** The entity object of [updateNotification] after its assignments.
    [mapNotificationStatus(null)] is [undefined] (the mapping has no such
    key), and [save] leaves a property that is [undefined] as the row has
    it; [retry_count] is not nullable and takes whole numbers only; an
    Invalid Date is no timestamp. *)
Definition assigned_entity (updateDto : UpdateNotificationDto.t)
    (notification : Notification.t) : option Notification.t :=
  let n1 := assign_if_defined (UpdateNotificationDto.status updateDto)
              (fun v => Some (mapNotificationStatus <$> v))
              (fun s n => from_option (fun s => Notification.set_status s n) n s)
              (Some notification) in
  let n2 := assign_if_defined (UpdateNotificationDto.external_id updateDto)
              Some Notification.set_external_id n1 in
  let n3 := assign_if_defined (UpdateNotificationDto.error_message updateDto)
              Some Notification.set_error_message n2 in
  let n4 := assign_if_defined (UpdateNotificationDto.retry_count updateDto)
              (fun v => v ≫= whole_number) Notification.set_retry_count n3 in
  let n5 := assign_if_defined (UpdateNotificationDto.sent_at updateDto)
              (fun v => Some <$> new_Date v) Notification.set_sent_at n4 in
  let n6 := assign_if_defined (UpdateNotificationDto.delivered_at updateDto)
              (fun v => Some <$> new_Date v) Notification.set_delivered_at n5 in
  let n7 := assign_if_defined (UpdateNotificationDto.opened_at updateDto)
              (fun v => Some <$> new_Date v) Notification.set_opened_at n6 in
  assign_if_defined (UpdateNotificationDto.clicked_at updateDto)
    (fun v => Some <$> new_Date v) Notification.set_clicked_at n7.

(** The response to a request whose status is [null] shows no status;
    the response of the embedding shows the stored one. *)
Definition updateNotification (notificationId : string) (updateDto : UpdateNotificationDto.t)
  : Service NotificationResponseDto.t :=
  let* found := notificationRepository_findOne notificationId (fun _ => true) in
  match found with
  | None => throw (NotFoundException "Notification not found")
  | Some notification =>
      match assigned_entity updateDto notification with
      | Some entity =>
          let* updatedNotification := notificationRepository_save entity in
          ret (transformNotificationToDto updatedNotification)
      | None => throw QueryFailedError
      end
  end.

(** The [where] clause of [markAsRead]. *)
Definition in_app_of (userId : string) (n : Notification.t) : bool :=
  bool_decide (Notification.recipient_id n = userId)
  && bool_decide (Notification.type n = IN_APP).

Definition markAsRead (notificationId userId : string)
  : Service NotificationResponseDto.t :=
  let* found := notificationRepository_findOne notificationId (in_app_of userId) in
  match found with
  | None => throw (NotFoundException "In-app notification not found")
  | Some notification =>
      match Notification.opened_at notification with
      | None =>
          let* now := Date_now in
          let* saved :=
            notificationRepository_save (Notification.set_opened_at (Some now) notification) in
          ret (transformNotificationToDto saved)
      | Some _ => ret (transformNotificationToDto notification)
      end
  end.

(** [UPDATE notifications SET ... WHERE cond]: every row that satisfies
    [cond] is changed by [f] and has [updated_at] stamped; the number of
    affected rows is returned. *)
Definition notificationRepository_update
    (cond : Notification.t -> bool) (f : Notification.t -> Notification.t) : Service Z :=
  fun w =>
    let stamp := clock w (clock_reads w) in
    (inr (Z.of_nat (length (rows_where cond w))),
     set_clock_reads (S (clock_reads w))
       (set_notifications
          (map_imap
             (fun k row =>
                let n := Notification.set_id k row in
                Some (if cond n then Notification.set_updated_at stamp (f n) else row))
             (notifications w)) w)).

Definition markAllAsRead (userId : string) : Service Z :=
  let* now := Date_now in
  let* affected :=
    notificationRepository_update
      (fun n => in_app_of userId n && bool_decide (Notification.opened_at n = None))
      (Notification.set_opened_at (Some now)) in
  ret (or_zero (Some affected)).

Definition deleteNotification (notificationId : string) (userId : option string)
  : Service unit :=
  let* found := notificationRepository_findOne notificationId (owned_by userId) in
  match found with
  | None => throw (NotFoundException "Notification not found or access denied")
  | Some notification => notificationRepository_remove notification
  end.

Definition retryNotification (notificationId : string)
  : Service NotificationResponseDto.t :=
  let* found := notificationRepository_findOne notificationId (fun _ => true) in
  match found with
  | None => throw (NotFoundException "Notification not found")
  | Some notification =>
      if decide (Notification.status notification ≠ FAILED) then
        throw (BadRequestException "Only failed notifications can be retried")
      else
        let n' :=
          Notification.set_error_message None
            (Notification.set_retry_count (Notification.retry_count notification + 1)
               (Notification.set_status PENDING notification)) in
        let* updatedNotification := notificationRepository_save n' in
        do processNotificationAsync (Notification.id updatedNotification) in
        ret (transformNotificationToDto updatedNotification)
  end.

(** ** Statistics

    A count is a whole number, far below 2^53, where a double holds every
    whole number exactly; sums and comparisons of counts are taken on
    whole numbers. The three rates are doubles: the division, the two
    multiplications by 100 and the final division by 100 each round to
    the nearest double, as in the source. The fields
    [recent_notifications] and [avg_delivery_time] of the source are not
    part of the embedding. *)

Module NotificationStats.

Record t := {
  total_notifications : Z;
  by_type : gmap string Z;
  by_status : gmap string Z;
  by_template : gmap string Z;
  delivery_rate : float;
  open_rate : float;
  click_rate : float;
  failed_notifications : Z
}.

End NotificationStats.

(** The JS number of a whole number: the nearest double. *)
Definition js_number (z : Z) : float := SF2Prim (binary_normalize prec emax z 0 false).

(** [Math.round]: the nearest whole number, halves upwards; a double that
    is a whole number, infinite or not a number is returned as it is. The
    value of a finite double is [m * 2^e], so for [e < 0] the floor of
    [m * 2^e + 1/2] is [(2 * m + 2^(-e))] divided by [2^(1 - e)]. *)
Definition Math_round (x : float) : float :=
  match Prim2SF x with
  | S754_finite s m e =>
      if decide (0 <= e) then x
      else
        let m2 := if s then - Z.pos m~0 else Z.pos m~0 in
        SF2Prim (binary_normalize prec emax ((m2 + 2 ^ (- e)) / 2 ^ (1 - e)) 0 s)
  | _ => x
  end.

(** [SELECT key, COUNT( * ) ... WHERE cond GROUP BY key]: one row for
    each key value that occurs, with the number of its rows. *)
Definition group_by_count (key : Notification.t -> string) (rows : list Notification.t)
  : list (string * Z) :=
  (fun k => (k, Z.of_nat (length (filter (fun n => key n = k) rows))))
    <$> remove_dups (key <$> rows).

Definition grouped_count (key : Notification.t -> string) (cond : Notification.t -> bool)
  : Service (list (string * Z)) :=
  fun w => (inr (group_by_count key (rows_where cond w)), w).

(** [stats.reduce((acc, stat) => { acc[stat.key] = parseInt(stat.count); return acc }, {})]. *)
Definition reduce_counts (stats : list (string * Z)) : gmap string Z :=
  foldl (fun acc stat => <[stat.1 := stat.2]> acc) ∅ stats.

Definition getNotificationStats (userId : option string) : Service NotificationStats.t :=
  let* totalNotifications := notificationRepository_count (owned_by userId) in
  let* typeStats :=
    grouped_count (fun n => type_value (Notification.type n)) (owned_by userId) in
  let byType := reduce_counts typeStats in
  let* statusStats :=
    grouped_count (fun n => status_value (Notification.status n)) (owned_by userId) in
  let byStatus := reduce_counts statusStats in
  let* templateStats := grouped_count Notification.template (owned_by userId) in
  let byTemplate := reduce_counts templateStats in
  let deliveredCount := or_zero (byStatus !! status_value DELIVERED) in
  let sentCount := or_zero (byStatus !! status_value SENT) in
  let totalSent :=
    deliveredCount + sentCount + or_zero (byStatus !! status_value FAILED) in
  let deliveryRate : float :=
    if decide (totalSent > 0)
    then (js_number (deliveredCount + sentCount) / js_number totalSent * 100)%float
    else 0%float in
  let* openedCount :=
    notificationRepository_count
      (fun n => bool_decide (is_Some (Notification.opened_at n)) && owned_by userId n) in
  let openRate : float :=
    if decide (deliveredCount + sentCount > 0)
    then (js_number openedCount / js_number (deliveredCount + sentCount) * 100)%float
    else 0%float in
  let* clickedCount :=
    notificationRepository_count
      (fun n => bool_decide (is_Some (Notification.clicked_at n)) && owned_by userId n) in
  let clickRate : float :=
    if decide (openedCount > 0)
    then (js_number clickedCount / js_number openedCount * 100)%float
    else 0%float in
  let failedNotifications := or_zero (byStatus !! status_value FAILED) in
  ret {| NotificationStats.total_notifications := totalNotifications;
         NotificationStats.by_type := byType;
         NotificationStats.by_status := byStatus;
         NotificationStats.by_template := byTemplate;
         NotificationStats.delivery_rate := (Math_round (deliveryRate * 100) / 100)%float;
         NotificationStats.open_rate := (Math_round (openRate * 100) / 100)%float;
         NotificationStats.click_rate := (Math_round (clickRate * 100) / 100)%float;
         NotificationStats.failed_notifications := failedNotifications |}.

(** ** The delivery state machine of the specification

    The edges of the specification's transition table, used to state what
    the specification asks of a status update; the service itself has no
    such table. *)
Definition spec_delivery_edge (from to : NotificationStatus) : bool :=
  match from, to with
  | PENDING, SENT | PENDING, FAILED | SENT, DELIVERED | SENT, BOUNCED
  | FAILED, PENDING => true
  | _, _ => false
  end.

(** ** Concrete worlds for the examples *)

Definition example_user (id : string) : User.t := {| User.id := id; User.email := id +:+ "@example.com" |}.

Definition example_world (userIds : list string) (clk : nat -> Z) : World :=
  {| notifications := ∅;
     users := list_to_map ((fun id => (id, example_user id)) <$> userIds);
     clock := clk;
     clock_reads := 0;
     timers := [] |}.

Definition example_create (recipient : string) (t : NotificationType) : CreateNotificationDto.t :=
  {| CreateNotificationDto.recipient_id := recipient;
     CreateNotificationDto.type := t;
     CreateNotificationDto.template := "welcome";
     CreateNotificationDto.subject := "Welcome";
     CreateNotificationDto.content := "Hello";
     CreateNotificationDto.payload := None;
     CreateNotificationDto.priority := Some HIGH;
     CreateNotificationDto.scheduled_at := Some "2024-01-20T09:00:00.000Z" |}.

Definition example_bulk (recipients : list string) : BulkNotificationDto.t :=
  {| BulkNotificationDto.recipient_ids := recipients;
     BulkNotificationDto.type := EMAIL;
     BulkNotificationDto.template := "deadline_reminder";
     BulkNotificationDto.subject := "Reminder";
     BulkNotificationDto.content := "Hello";
     BulkNotificationDto.payload := None;
     BulkNotificationDto.priority := None |}.

Definition status_update (s : NotificationStatus) : UpdateNotificationDto.t :=
  {| UpdateNotificationDto.status := Given s;
     UpdateNotificationDto.external_id := Undefined;
     UpdateNotificationDto.error_message := Undefined;
     UpdateNotificationDto.retry_count := Undefined;
     UpdateNotificationDto.sent_at := Undefined;
     UpdateNotificationDto.delivered_at := Undefined;
     UpdateNotificationDto.opened_at := Undefined;
     UpdateNotificationDto.clicked_at := Undefined |}.

Definition retry_count_update (c : Z) : UpdateNotificationDto.t :=
  {| UpdateNotificationDto.status := Undefined;
     UpdateNotificationDto.external_id := Undefined;
     UpdateNotificationDto.error_message := Undefined;
     UpdateNotificationDto.retry_count := Given (inject_Z c);
     UpdateNotificationDto.sent_at := Undefined;
     UpdateNotificationDto.delivered_at := Undefined;
     UpdateNotificationDto.opened_at := Undefined;
     UpdateNotificationDto.clicked_at := Undefined |}.

(** A request that sets [retry_count], clears [error_message] and gives
    [null] for [sent_at]. *)
Definition example_update : UpdateNotificationDto.t :=
  {| UpdateNotificationDto.status := Undefined;
     UpdateNotificationDto.external_id := Undefined;
     UpdateNotificationDto.error_message := Null;
     UpdateNotificationDto.retry_count := Given (inject_Z 4);
     UpdateNotificationDto.sent_at := Null;
     UpdateNotificationDto.delivered_at := Undefined;
     UpdateNotificationDto.opened_at := Undefined;
     UpdateNotificationDto.clicked_at := Undefined |}.

(** The world after a call, whatever the call returned. *)
Definition after {A : Type} (m : Service A) (w : World) : World := (m w).2.

(** The entity with primary key [id], as the repository returns it. *)
Definition stored_notification (w : World) (id : string) : option Notification.t :=
  Notification.set_id id <$> notifications w !! id.

(** What a call returned, if it did not throw. *)
Definition returned {A : Type} (r : (Exception + A) * World) : option A :=
  match r.1 with inr a => Some a | inl _ => None end.

(** ** The rates of the specification

    Counts over the rows of a scope, the percentage the specification
    defines ([0] for a zero denominator) and the rounding to two decimal
    places, both in the arithmetic of JS numbers. *)

Definition count_rows (p : Notification.t -> bool) (rows : list Notification.t) : Z :=
  Z.of_nat (length (filter (fun n => p n = true) rows)).

Definition has_status (s : NotificationStatus) (n : Notification.t) : bool :=
  bool_decide (Notification.status n = s).



Definition spec_rate (num den : Z) : float :=
  if decide (den = 0) then 0%float else (js_number num / js_number den * 100)%float.

Definition spec_round2 (x : float) : float := (Math_round (x * 100) / 100)%float.






(** ** Bulk dispatch: auxiliary notions *)

(** The keys of the user table that are among [ids], in table order. *)
Definition found_ids (ids : list string) (w : World) : list string :=
  filter (fun k => k ∈ ids) (map_to_list (users w)).*1.

(** What the database makes of a new entity [n]: the row [s] with a key and
    the two timestamps filled in. *)
Definition inserted (n s : Notification.t) : Prop :=
  exists k t, s = Notification.set_id k (Notification.set_created_at t (Notification.set_updated_at t n)).

(** The records a bulk dispatch returns. *)
Definition created (res : BulkResult.t) : list Notification.t :=
  NotificationResponseDto.notification <$> BulkResult.notifications res.

(** How many of the records of a bulk dispatch go to [recipientId]. *)
Definition records_for (recipientId : string) (res : BulkResult.t) : nat :=
  length (filter (fun n => Notification.recipient_id n = recipientId) (created res)).

(** A clock that advances by one millisecond after its first reading. *)
Definition ticking_clock (i : nat) : Z := if decide (i = 0%nat) then 1000 else 1001.

(** The [bulk_id] of each record of a bulk dispatch. *)
Definition bulk_ids (res : BulkResult.t) : list (option JsonValue) :=
  (fun n => Notification.payload n !! "bulk_id") <$> created res.

(** ** Sequences of operations *)

Inductive Operation :=
| OpCreate (createDto : CreateNotificationDto.t)
| OpCreateBulk (bulkDto : BulkNotificationDto.t)
| OpUpdate (notificationId : string) (updateDto : UpdateNotificationDto.t)
| OpRetry (notificationId : string)
| OpMarkAsRead (notificationId userId : string)
| OpMarkAllAsRead (userId : string).

(** The world after one operation, whether it returned or threw. *)
Definition run_operation (w : World) (op : Operation) : World :=
  match op with
  | OpCreate createDto => after (createNotification createDto) w
  | OpCreateBulk bulkDto => after (createBulkNotifications bulkDto) w
  | OpUpdate notificationId updateDto => after (updateNotification notificationId updateDto) w
  | OpRetry notificationId => after (retryNotification notificationId) w
  | OpMarkAsRead notificationId userId => after (markAsRead notificationId userId) w
  | OpMarkAllAsRead userId => after (markAllAsRead userId) w
  end.

Definition run_operations (ops : list Operation) (w : World) : World :=
  foldl run_operation w ops.

(** An update request that carries a [retry_count] of its own. *)
Definition carries_retry_count (op : Operation) : bool :=
  match op with
  | OpUpdate _ updateDto =>
      bool_decide (is_Some (defined (UpdateNotificationDto.retry_count updateDto)))
  | _ => false
  end.

(** Every row of [w] is still a row of [w'], with a [retry_count] that is
    not lower. *)
Definition keeps_retry_counts (w w' : World) : Prop :=
  forall k n,
    stored_notification w k = Some n ->
    exists n',
      stored_notification w' k = Some n'
      /\ Notification.retry_count n <= Notification.retry_count n'.

(** A sequence of operations on the first notification of a world. *)
Definition example_operations : list Operation :=
  [OpUpdate "0" (status_update FAILED); OpRetry "0"; OpMarkAsRead "0" "A";
   OpMarkAllAsRead "A"; OpCreateBulk (example_bulk ["A"; "B"]);
   OpUpdate "0" (status_update FAILED); OpRetry "0"].

(** ** Further notions for the properties of the service *)

(** The rows [markAllAsRead] updates: the unread in-app notifications of
    [userId]. *)
Definition unread_in_app (userId : string) (n : Notification.t) : bool :=
  in_app_of userId n && bool_decide (Notification.opened_at n = None).

(** [n'] has the identity and content of [n]: the columns no operation of
    the service assigns after creation. *)
Definition same_content (n n' : Notification.t) : Prop :=
  Notification.id n' = Notification.id n
  /\ Notification.recipient_id n' = Notification.recipient_id n
  /\ Notification.type n' = Notification.type n
  /\ Notification.template n' = Notification.template n
  /\ Notification.subject n' = Notification.subject n
  /\ Notification.content n' = Notification.content n
  /\ Notification.payload n' = Notification.payload n
  /\ Notification.created_at n' = Notification.created_at n.

(** Every row of [w] is still a row of [w'], with the same content. *)
Definition keeps_content (w w' : World) : Prop :=
  forall k n,
    stored_notification w k = Some n ->
    exists n', stored_notification w' k = Some n' /\ same_content n n'.

(** [n'] is [n] up to the update timestamp. *)
Definition same_but_updated_at (n n' : Notification.t) : Prop :=
  n' = n \/ exists t, n' = Notification.set_updated_at t n.

(** The ids of the delivery attempts queued for the records [l]. *)
Definition delivery_attempts (l : list Notification.t) : list Timer :=
  (fun n => DeliveryAttempt (Notification.id n)) <$> l.

(** ** Listing (getUserNotifications)

    The query runs in the database. What SQL does and the source does not
    determine is taken as given: how [LOWER(text) LIKE LOWER('%search%')]
    matches, and in which order [ORDER BY field direction] returns the
    rows. Page and limit are whole numbers. *)

Inductive SortOrder := asc | desc.

Module NotificationSearchDto.

Record t := {
  page : option Z;
  limit : option Z;
  type : option NotificationType;
  status : option NotificationStatus;
  template : option string;
  created_after : option Z;
  created_before : option Z;
  is_read : option bool;
  search : option string;
  sort_by : option string;
  sort_order : option SortOrder
}.

End NotificationSearchDto.

Record Database := {
  like_ci : string -> string -> bool;
  order_by : string -> SortOrder -> list Notification.t -> list Notification.t
}.

Module UserNotifications.

Record t := {
  notifications : list NotificationResponseDto.t;
  total : Z;
  page : Z;
  limit : Z;
  totalPages : Z;
  unread_count : Z
}.

End UserNotifications.

(** The conditions [applySearchFilters] adds to the query, as a test on a
    row. *)
Definition applySearchFilters (db : Database) (searchDto : NotificationSearchDto.t)
    (n : Notification.t) : bool :=
  match NotificationSearchDto.type searchDto with
  | Some t => bool_decide (Notification.type n = mapNotificationType t)
  | None => true
  end
  && match NotificationSearchDto.status searchDto with
     | Some s => bool_decide (Notification.status n = mapNotificationStatus s)
     | None => true
     end
  && match NotificationSearchDto.template searchDto with
     | Some t => if truthy t then bool_decide (Notification.template n = t) else true
     | None => true
     end
  && match NotificationSearchDto.created_after searchDto with
     | Some d => bool_decide (d <= Notification.created_at n)
     | None => true
     end
  && match NotificationSearchDto.created_before searchDto with
     | Some d => bool_decide (Notification.created_at n <= d)
     | None => true
     end
  && match NotificationSearchDto.is_read searchDto with
     | Some true => bool_decide (is_Some (Notification.opened_at n))
     | Some false => bool_decide (Notification.opened_at n = None)
     | None => true
     end
  && match NotificationSearchDto.search searchDto with
     | Some s =>
         if truthy s
         then like_ci db (Notification.subject n) s || like_ci db (Notification.content n) s
         else true
     | None => true
     end.

Definition allowedFields : list string :=
  ["created_at"; "sent_at"; "delivered_at"; "subject"].

Definition validateSortField (sortBy : string) : Service string :=
  if bool_decide (sortBy ∈ allowedFields)
  then ret sortBy
  else throw (BadRequestException ("Invalid sort field: " +:+ sortBy)).

(** The [WHERE] clause of the listing query. *)
Definition listing_condition (db : Database) (userId : string)
    (searchDto : NotificationSearchDto.t) (n : Notification.t) : bool :=
  bool_decide (Notification.recipient_id n = userId) && applySearchFilters db searchDto n.

(** [getManyAndCount] of the ordered, paginated query: the page and the
    number of rows the conditions select. The query builder writes
    [OFFSET skip] and [LIMIT take] into the statement unless the number
    is 0, and the database refuses a negative one. *)
Definition getManyAndCount (db : Database) (cond : Notification.t -> bool)
    (sortField : string) (sortOrder : SortOrder) (skip take_ : Z)
  : Service (list Notification.t * Z) :=
  fun w =>
    if decide (skip < 0 \/ take_ < 0) then (inl QueryFailedError, w)
    else
      let matching := rows_where cond w in
      let from_offset := drop (Z.to_nat skip) (order_by db sortField sortOrder matching) in
      (inr (if decide (take_ = 0) then from_offset else take (Z.to_nat take_) from_offset,
            Z.of_nat (length matching)),
       w).

(** The [where] of the unread count is a find option, and the find
    options of TypeORM 0.3 skip a property whose value is [null] (the
    source notes the issue next to it): the count ranges over the in-app
    notifications of the user, read or not. For a limit of 0 the source
    divides by zero, which [totalPages] here does not represent. *)
Definition getUserNotifications (db : Database) (userId : string)
    (searchDto : NotificationSearchDto.t) : Service UserNotifications.t :=
  let page := default 1 (NotificationSearchDto.page searchDto) in
  let limit := default 20 (NotificationSearchDto.limit searchDto) in
  let sort_by := default "created_at" (NotificationSearchDto.sort_by searchDto) in
  let sort_order := default desc (NotificationSearchDto.sort_order searchDto) in
  let* sortField := validateSortField sort_by in
  let skip := (page - 1) * limit in
  let* result :=
    getManyAndCount db (listing_condition db userId searchDto) sortField sort_order
      skip limit in
  let* unreadCount :=
    notificationRepository_count
      (fun n => bool_decide (Notification.recipient_id n = userId)
                && bool_decide (Notification.type n = IN_APP)) in
  ret {| UserNotifications.notifications := transformNotificationToDto <$> result.1;
         UserNotifications.total := result.2;
         UserNotifications.page := page;
         UserNotifications.limit := limit;
         UserNotifications.totalPages := Qceiling (inject_Z result.2 / inject_Z limit);
         UserNotifications.unread_count := unreadCount |}.

(** A database for the examples: every text matches and rows come in
    table order. *)
Definition example_database : Database :=
  {| like_ci := fun _ _ => true;
     order_by := fun _ _ rows => rows |}.

Definition example_search (page limit : Z) : NotificationSearchDto.t :=
  {| NotificationSearchDto.page := Some page;
     NotificationSearchDto.limit := Some limit;
     NotificationSearchDto.type := None;
     NotificationSearchDto.status := Some PENDING;
     NotificationSearchDto.template := None;
     NotificationSearchDto.created_after := None;
     NotificationSearchDto.created_before := None;
     NotificationSearchDto.is_read := Some false;
     NotificationSearchDto.search := None;
     NotificationSearchDto.sort_by := None;
     NotificationSearchDto.sort_order := None |}.

(** A world with three notifications of A and one of B. *)
Definition example_listing_world : World :=
  after (createNotification (example_create "A" IN_APP))
    (after (createNotification (example_create "B" IN_APP))
       (after (createNotification (example_create "A" EMAIL))
          (after (createNotification (example_create "A" IN_APP))
             (example_world ["A"; "B"] (fun i => 1000 + Z.of_nat i))))).

(** ** Updates: what a request asks of a row

    The value of each column after an update that the database accepts,
    and the requests it refuses, read off the request field by field. *)

Definition requested_status (field : Field NotificationStatus) (old : NotificationStatus)
  : NotificationStatus :=
  match field with
  | Given s => s
  | _ => old
  end.

(** [null] clears a text column. *)
Definition requested_text (field : Field string) (old : option string) : option string :=
  match field with
  | Undefined => old
  | Null => None
  | Given s => Some s
  end.

Definition requested_retry_count (field : Field Q) (old : Z) : Z :=
  match field with
  | Given x => default old (whole_number x)
  | _ => old
  end.

(** [null] sets a timestamp to the epoch. *)
Definition requested_timestamp (field : Field DateString) (old : option Z) : option Z :=
  match field with
  | Undefined => old
  | Null => Some 0
  | Given d => if d is Some t then Some t else old
  end.

(** A [retry_count] that is [null], not a whole number, or a new value
    out of the range of the column. *)
Definition refused_retry_count (field : Field Q) (old : Z) : bool :=
  match field with
  | Undefined => false
  | Null => true
  | Given x =>
      match whole_number x with
      | Some z => negb (bool_decide (z = old) || int_column z)
      | None => true
      end
  end.

(** A new text that its column cannot hold. *)
Definition refused_text (fits : string -> bool) (field : Field string) (old : option string)
  : bool :=
  match field with
  | Given s => negb (bool_decide (Some s = old) || fits s)
  | _ => false
  end.

(** A date string that gives no timestamp. *)
Definition refused_timestamp (field : Field DateString) : bool :=
  match field with
  | Given None => true
  | _ => false
  end.

Definition update_refused (updateDto : UpdateNotificationDto.t) (n : Notification.t) : bool :=
  refused_retry_count (UpdateNotificationDto.retry_count updateDto) (Notification.retry_count n)
  || refused_text (varchar_column 255) (UpdateNotificationDto.external_id updateDto)
       (Notification.external_id n)
  || refused_text text_column (UpdateNotificationDto.error_message updateDto)
       (Notification.error_message n)
  || refused_timestamp (UpdateNotificationDto.sent_at updateDto)
  || refused_timestamp (UpdateNotificationDto.delivered_at updateDto)
  || refused_timestamp (UpdateNotificationDto.opened_at updateDto)
  || refused_timestamp (UpdateNotificationDto.clicked_at updateDto).

(** The assignment of [assign_if_defined] on an entity, when the column
    has the value, and whether it has. *)
Definition assign_value {A B : Type}
    (field : Field A) (value : option A -> option B)
    (set : B -> Notification.t -> Notification.t) (n : Notification.t) : Notification.t :=
  match defined field with
  | Some v => if value v is Some b then set b n else n
  | None => n
  end.

Definition unassignable {A B : Type} (field : Field A) (value : option A -> option B) : bool :=
  match defined field with
  | Some v => if value v is Some _ then false else true
  | None => false
  end.

(** A request that assigns a value no row holds: a [retry_count] that is
    [null] or no whole number, or a date string that gives no timestamp. *)
Definition unrepresentable (updateDto : UpdateNotificationDto.t) : bool :=
  unassignable (UpdateNotificationDto.retry_count updateDto) (fun v => v ≫= whole_number)
  || unassignable (UpdateNotificationDto.sent_at updateDto) (fun v => Some <$> new_Date v)
  || unassignable (UpdateNotificationDto.delivered_at updateDto) (fun v => Some <$> new_Date v)
  || unassignable (UpdateNotificationDto.opened_at updateDto) (fun v => Some <$> new_Date v)
  || unassignable (UpdateNotificationDto.clicked_at updateDto) (fun v => Some <$> new_Date v).

(** The entity object after the assignments of a request that is not of
    that kind. *)
Definition representable_entity (updateDto : UpdateNotificationDto.t)
    (notification : Notification.t) : Notification.t :=
  assign_value (UpdateNotificationDto.clicked_at updateDto)
    (fun v => Some <$> new_Date v) Notification.set_clicked_at
    (assign_value (UpdateNotificationDto.opened_at updateDto)
       (fun v => Some <$> new_Date v) Notification.set_opened_at
       (assign_value (UpdateNotificationDto.delivered_at updateDto)
          (fun v => Some <$> new_Date v) Notification.set_delivered_at
          (assign_value (UpdateNotificationDto.sent_at updateDto)
             (fun v => Some <$> new_Date v) Notification.set_sent_at
             (assign_value (UpdateNotificationDto.retry_count updateDto)
                (fun v => v ≫= whole_number) Notification.set_retry_count
                (assign_value (UpdateNotificationDto.error_message updateDto)
                   Some Notification.set_error_message
                   (assign_value (UpdateNotificationDto.external_id updateDto)
                      Some Notification.set_external_id
                      (assign_value (UpdateNotificationDto.status updateDto)
                         (fun v => Some (mapNotificationStatus <$> v))
                         (fun s n => from_option (fun s => Notification.set_status s n) n s)
                         notification))))))).

(** * Properties *)

(** ** Basic facts about entities and repositories *)

Lemma set_id_same (n : Notification.t) : Notification.set_id (Notification.id n) n = n.
Proof. by destruct n. Qed.

Lemma stored_notification_id (w : World) (k : string) (n : Notification.t) :
  stored_notification w k = Some n -> Notification.id n = k.
Proof.
  unfold stored_notification. destruct (notifications w !! k); [|done].
  intros [= <-]. done.
Qed.

Lemma findOne_stored (k : string) (cond : Notification.t -> bool) (w : World) :
  notificationRepository_findOne k cond w =
    (inr (match stored_notification w k with
          | Some n => if cond n then Some n else None
          | None => None
          end), w).
Proof. reflexivity. Qed.

Lemma fresh_key_unused (w : World) :
  notifications w !! (fresh (dom (notifications w)) : string) = None.
Proof. apply not_elem_of_dom, is_fresh. Qed.

Lemma update_accepted_same_columns (stored n : Notification.t) :
  Notification.retry_count n = Notification.retry_count stored ->
  Notification.external_id n = Notification.external_id stored ->
  Notification.error_message n = Notification.error_message stored ->
  update_accepted stored n = true.
Proof.
  intros Hr He Hm. unfold update_accepted.
  by rewrite !bool_decide_eq_true_2 by done.
Qed.

Lemma insert_accepted_update_accepted (stored n : Notification.t) :
  insert_accepted n = true -> update_accepted stored n = true.
Proof.
  unfold insert_accepted, update_accepted.
  rewrite !andb_true_iff. intros [[-> ->] ->]. by rewrite !orb_true_r.
Qed.

(** A save that the database accepts, of an entity that was loaded under
    key [k]: afterwards the repository returns the saved entity under
    [k], with the columns of the argument up to [updated_at], and every
    other row is as before. *)
Lemma save_stored (n : Notification.t) (w : World) (k : string) :
  Notification.id n = k ->
  match stored_notification w k with
  | Some stored => update_accepted stored n = true
  | None => insert_accepted n = true
  end ->
  exists n' w',
    notificationRepository_save n w = (inr n', w')
    /\ stored_notification w' k = Some n'
    /\ (n' = n \/ exists t, n' = Notification.set_updated_at t n)
    /\ (forall k', k' <> k -> notifications w' !! k' = notifications w !! k')
    /\ users w' = users w /\ timers w' = timers w /\ clock w' = clock w.
Proof.
  intros Hk. unfold notificationRepository_save, stored_notification. rewrite Hk.
  destruct (notifications w !! k) as [stored|] eqn:Hs; cbn [fmap option_fmap option_map].
  - intros Hacc. destruct (decide (Notification.set_id k stored = n)) as [Heq|Hne].
    + exists n, w. split_and!; try done; [|by left].
      by rewrite Hs, <- Heq.
    + replace (update_accepted stored n) with true by (rewrite <- Hacc; by destruct stored).
      eexists _, _. split; [done|]. split_and!; try done.
      * simpl. rewrite lookup_insert_eq. simpl.
        f_equal. rewrite <- Hk at 1. destruct n; done.
      * right. by eexists.
      * intros k' Hk'. simpl. by rewrite lookup_insert_ne.
  - intros ->. exists n, (set_notifications (<[k := n]> (notifications w)) w).
    split; [done|]. split_and!; try done; [|by left|].
    + simpl. rewrite lookup_insert_eq. simpl.
      f_equal. rewrite <- Hk. apply set_id_same.
    + intros k' Hk'. simpl. by rewrite lookup_insert_ne.
Qed.

(** A save of a changed entity that the database refuses. *)
Lemma save_refused (n stored : Notification.t) (w : World) (k : string) :
  Notification.id n = k ->
  stored_notification w k = Some stored ->
  update_accepted stored n = false ->
  notificationRepository_save n w = (inl QueryFailedError, w).
Proof.
  intros Hk Hst Hacc. unfold notificationRepository_save. rewrite Hk.
  unfold stored_notification in Hst.
  destruct (notifications w !! k) as [row|]; [|done]. injection Hst as <-.
  rewrite decide_False.
  - replace (update_accepted row n) with false by (rewrite <- Hacc; by destruct row). done.
  - intros <-. rewrite update_accepted_same_columns in Hacc; done.
Qed.

(** A save either is refused, and then nothing is written, or goes
    through. *)
Lemma save_cases (n : Notification.t) (w : World) :
  notificationRepository_save n w = (inl QueryFailedError, w)
  \/ exists n' w',
       notificationRepository_save n w = (inr n', w')
       /\ stored_notification w' (Notification.id n) = Some n'
       /\ (n' = n \/ exists t, n' = Notification.set_updated_at t n)
       /\ (forall k', k' <> Notification.id n ->
             notifications w' !! k' = notifications w !! k').
Proof.
  destruct (stored_notification w (Notification.id n)) as [stored|] eqn:Hst.
  - destruct (update_accepted stored n) eqn:Hacc.
    + right. destruct (save_stored n w (Notification.id n) eq_refl)
        as (n' & w' & ? & ? & ? & ? & _); [by rewrite Hst|].
      by exists n', w'.
    + left. by eapply save_refused.
  - destruct (insert_accepted n) eqn:Hacc.
    + right. destruct (save_stored n w (Notification.id n) eq_refl)
        as (n' & w' & ? & ? & ? & ? & _); [by rewrite Hst|].
      by exists n', w'.
    + left. unfold notificationRepository_save. unfold stored_notification in Hst.
      destruct (notifications w !! Notification.id n); [done|]. by rewrite Hacc.
Qed.

(** ** Single dispatch *)

(** C4. [createNotification] throws exactly when the recipient is not in
    the user table; the exception is the recipient-not-found one and the
    world (the notification table with it) is left as it was. When the
    recipient exists the call returns a record. *)
Theorem createNotification_fails_iff_recipient_missing
    (createDto : CreateNotificationDto.t) (w : World) :
  (users w !! CreateNotificationDto.recipient_id createDto = None
   <-> exists e, (createNotification createDto w).1 = inl e)
  /\ (users w !! CreateNotificationDto.recipient_id createDto = None
      <-> createNotification createDto w
          = (inl (NotFoundException "Recipient user not found"), w)).
Proof.
  unfold createNotification, bind, userRepository_findOne.
  destruct (users w !! _) as [u|] eqn:Hu; simpl.
  - split; (split; [done|]).
    + intros [e He]. discriminate He.
    + intros He. discriminate He.
  - split; (split; [|done]); intros _; [by eexists | done].
Qed.

(** C7. A successful single dispatch stores a record whose status is
    pending; a supplied priority and a supplied (non-empty, as every date
    string is) scheduled_at are the values of the keys [priority] and
    [scheduled_at] of its payload, every other key of the payload is the
    request's. The entity has no column for either. *)
Theorem createNotification_pending_with_payload_keys
    (createDto : CreateNotificationDto.t) (w : World) (u : User.t)
    (Hrecipient : users w !! CreateNotificationDto.recipient_id createDto = Some u) :
  exists r w',
    createNotification createDto w = (inr r, w')
    /\ let n := NotificationResponseDto.notification r in
       stored_notification w' (Notification.id n) = Some n
       /\ notifications w !! Notification.id n = None
       /\ Notification.status n = PENDING
       /\ (forall p, CreateNotificationDto.priority createDto = Some p ->
             Notification.payload n !! "priority" = Some (JString (priority_value p)))
       /\ (forall s, CreateNotificationDto.scheduled_at createDto = Some s -> s <> "" ->
             Notification.payload n !! "scheduled_at" = Some (JString s))
       /\ (forall k, k <> "priority" -> k <> "scheduled_at" ->
             Notification.payload n !! k
             = default ∅ (CreateNotificationDto.payload createDto) !! k).
Proof.
  unfold createNotification, bind, userRepository_findOne. rewrite Hrecipient. simpl.
  eexists _, _. split; [reflexivity|]. simpl.
  split_and!.
  - unfold stored_notification. simpl. by rewrite lookup_insert_eq.
  - apply fresh_key_unused.
  - done.
  - intros p Hp. unfold create_payload. rewrite Hp.
    destruct (CreateNotificationDto.scheduled_at createDto) as [s|]; [destruct (truthy s)|];
      rewrite ?lookup_insert_ne by done; by rewrite lookup_insert_eq.
  - intros s Hs Hne. unfold create_payload. rewrite Hs.
    unfold truthy. rewrite bool_decide_eq_true_2 by done. by rewrite lookup_insert_eq.
  - intros k Hk1 Hk2. unfold create_payload.
    destruct (CreateNotificationDto.scheduled_at createDto) as [s|]; [destruct (truthy s)|];
      destruct (CreateNotificationDto.priority createDto);
      by rewrite ?lookup_insert_ne by done.
Qed.

Lemma createNotification_pending_with_payload_keys_witness :
  exists r w',
    createNotification (example_create "A" EMAIL)
      (example_world ["A"] (fun _ => 1000)) = (inr r, w')
    /\ let n := NotificationResponseDto.notification r in
       stored_notification w' (Notification.id n) = Some n
       /\ notifications (example_world ["A"] (fun _ => 1000)) !! Notification.id n = None
       /\ Notification.status n = PENDING
       /\ (forall p, Some HIGH = Some p ->
             Notification.payload n !! "priority" = Some (JString (priority_value p)))
       /\ (forall s, Some "2024-01-20T09:00:00.000Z" = Some s -> s <> "" ->
             Notification.payload n !! "scheduled_at" = Some (JString s))
       /\ (forall k, k <> "priority" -> k <> "scheduled_at" ->
             Notification.payload n !! k = default ∅ (@None (gmap string JsonValue)) !! k).
Proof.
  apply (createNotification_pending_with_payload_keys
           (example_create "A" EMAIL) (example_world ["A"] (fun _ => 1000))
           (example_user "A")).
  vm_compute. reflexivity.
Defined.

(** ** Retry *)

(** The entity [retryNotification] saves, against the row it was loaded
    from: the database accepts the save exactly when the raised count
    fits the column. *)
Lemma retry_entity_accepted (n : Notification.t) :
  update_accepted n
    (Notification.set_error_message None
       (Notification.set_retry_count (Notification.retry_count n + 1)
          (Notification.set_status PENDING n)))
  = int_column (Notification.retry_count n + 1).
Proof.
  unfold update_accepted. destruct n; cbn.
  rewrite bool_decide_eq_false_2 by lia.
  rewrite (bool_decide_eq_true_2 (external_id = external_id)) by done.
  by rewrite orb_true_r, !andb_true_r.
Qed.

(** C2, as the specification states it, fails: a failed notification
    whose [retry_count] is the largest value of the int column (an update
    request can set it) is not retried. The database refuses the raised
    count, the call throws and the record stays failed. *)
Lemma retryNotification_refused_at_int_max :
  let w1 := after (createNotification (example_create "A" EMAIL))
              (example_world ["A"] (fun _ => 1000)) in
  let w2 := after (updateNotification "0" (status_update FAILED)) w1 in
  let w3 := after (updateNotification "0" (retry_count_update 2147483647)) w2 in
  (fun n => (Notification.status n, Notification.retry_count n))
    <$> stored_notification w3 "0" = Some (FAILED, 2147483647)
  /\ retryNotification "0" w3 = (inl QueryFailedError, w3).
Proof. vm_compute. split; reflexivity. Qed.

(** C2, amended. [retryNotification] on an unknown id throws the
    not-found exception; on a notification whose status is not failed it
    throws the bad-request exception and the world is left as it was; on
    a failed notification whose [retry_count] plus one fits the int
    column it returns the stored record with status pending,
    [retry_count] one higher and no error message, and no other row is
    touched; on a failed notification whose raised count does not fit,
    the database refuses the save, the call throws and the world is left
    as it was. *)
Theorem retryNotification_only_from_failed (notificationId : string) (w : World) :
  match stored_notification w notificationId with
  | None =>
      retryNotification notificationId w
      = (inl (NotFoundException "Notification not found"), w)
  | Some n =>
      if decide (Notification.status n = FAILED) then
        if int_column (Notification.retry_count n + 1) then
          exists r w',
            retryNotification notificationId w = (inr r, w')
            /\ stored_notification w' notificationId
               = Some (NotificationResponseDto.notification r)
            /\ Notification.status (NotificationResponseDto.notification r) = PENDING
            /\ Notification.retry_count (NotificationResponseDto.notification r)
               = Notification.retry_count n + 1
            /\ Notification.error_message (NotificationResponseDto.notification r) = None
            /\ (forall k, k <> notificationId ->
                  notifications w' !! k = notifications w !! k)
        else retryNotification notificationId w = (inl QueryFailedError, w)
      else
        retryNotification notificationId w
        = (inl (BadRequestException "Only failed notifications can be retried"), w)
  end.
Proof.
  unfold retryNotification, bind. rewrite findOne_stored.
  destruct (stored_notification w notificationId) as [n|] eqn:Hn; [|done].
  destruct (decide (Notification.status n = FAILED)) as [Hf|Hf].
  - rewrite decide_False by (intros H; by apply H).
    pose proof (stored_notification_id _ _ _ Hn) as Hid.
    pose proof (retry_entity_accepted n) as Hacc.
    set (n' := Notification.set_error_message None _) in *.
    assert (Notification.id n' = notificationId) as Hid' by (by destruct n).
    destruct (int_column (Notification.retry_count n + 1)).
    + destruct (save_stored n' w notificationId Hid')
        as (s & w' & Hsave & Hst & Hs & Hframe & _); [by rewrite Hn|].
      rewrite Hsave. eexists _, _. split; [reflexivity|]. simpl.
      split; [exact Hst|].
      destruct Hs as [->|[t ->]]; by destruct n.
    + by rewrite (save_refused n' n w notificationId Hid' Hn Hacc).
  - by rewrite decide_True.
Qed.

(** The scenario of the specification: a failed record is retried once. *)
Example retry_after_failure :
  let w1 := after (createNotification (example_create "A" EMAIL))
              (example_world ["A"] (fun _ => 1000)) in
  let w2 := after (updateNotification "0" (status_update FAILED)) w1 in
  (fun r => (Notification.status (NotificationResponseDto.notification r),
             Notification.retry_count (NotificationResponseDto.notification r),
             Notification.error_message (NotificationResponseDto.notification r)))
    <$> returned (retryNotification "0" w2)
  = Some (PENDING, 1, None).
Proof. vm_compute. reflexivity. Qed.

(** The delivery simulation queued by a dispatch: the outer callback
    sends a pending record, the inner one confirms the delivery. *)
Example delivery_timers_deliver :
  let w1 := after (createNotification (example_create "A" EMAIL))
              (example_world ["A"] (fun i => 1000 + Z.of_nat i)) in
  let w2 := after (runTimer (DeliveryAttempt "0")) w1 in
  timers w1 = [DeliveryAttempt "0"]
  /\ (fun n => (Notification.status n, Notification.sent_at n))
       <$> stored_notification w2 "0" = Some (SENT, Some 1001)
  /\ (fun n => (Notification.status n, Notification.delivered_at n))
       <$> stored_notification
             (after (forEach runTimer (drop 1 (timers w2))) w2) "0"
     = Some (DELIVERED, Some 1003).
Proof. vm_compute. repeat split; reflexivity. Qed.

(** ** The entity an update saves *)

Lemma assign_if_defined_total {A B : Type} (field : Field A) (value : option A -> option B)
    (set : B -> Notification.t -> Notification.t) (entity : option Notification.t) :
  assign_if_defined field value set entity
  = if unassignable field value then None else assign_value field value set <$> entity.
Proof.
  unfold assign_if_defined, unassignable, assign_value.
  destruct (defined field) as [v|]; [destruct (value v)|]; by destruct entity.
Qed.

Lemma unassignable_Some {A B : Type} (field : Field A) (g : option A -> B) :
  unassignable field (fun v => Some (g v)) = false.
Proof. unfold unassignable. by destruct (defined field). Qed.

Lemma assigned_entity_total (updateDto : UpdateNotificationDto.t) (n : Notification.t) :
  assigned_entity updateDto n
  = if unrepresentable updateDto then None else Some (representable_entity updateDto n).
Proof.
  unfold assigned_entity, unrepresentable, representable_entity.
  rewrite !assign_if_defined_total.
  rewrite (unassignable_Some _ (fun v => mapNotificationStatus <$> v)).
  rewrite !(unassignable_Some _ (fun v => v)).
  destruct (unassignable (UpdateNotificationDto.retry_count updateDto) _);
    destruct (unassignable (UpdateNotificationDto.sent_at updateDto) _);
    destruct (unassignable (UpdateNotificationDto.delivered_at updateDto) _);
    destruct (unassignable (UpdateNotificationDto.opened_at updateDto) _);
    destruct (unassignable (UpdateNotificationDto.clicked_at updateDto) _); reflexivity.
Qed.

Lemma assign_value_other {A B C : Type} (f : Notification.t -> C) (field : Field A)
    (value : option A -> option B) (set : B -> Notification.t -> Notification.t)
    (n : Notification.t) :
  (forall b m, f (set b m) = f m) -> f (assign_value field value set n) = f n.
Proof.
  intros Hset. unfold assign_value.
  destruct (defined field) as [v|]; [destruct (value v)|]; by rewrite ?Hset.
Qed.

Lemma assign_value_this {A B C : Type} (f : Notification.t -> C) (g : B -> C)
    (field : Field A) (value : option A -> option B)
    (set : B -> Notification.t -> Notification.t) (n : Notification.t) :
  (forall b m, f (set b m) = g b) ->
  f (assign_value field value set n)
  = match defined field with
    | Some v => if value v is Some b then g b else f n
    | None => f n
    end.
Proof.
  intros Hset. unfold assign_value.
  destruct (defined field) as [v|]; [destruct (value v)|]; by rewrite ?Hset.
Qed.

Ltac other_column := rewrite assign_value_other by (by intros [] ? || by intros ? []).
Ltac this_column g := rewrite (assign_value_this _ g) by (by intros ? []).

Lemma same_content_assign_value {A B : Type} (field : Field A) (value : option A -> option B)
    (set : B -> Notification.t -> Notification.t) (n0 n : Notification.t) :
  (forall b m, same_content m (set b m)) ->
  same_content n0 n -> same_content n0 (assign_value field value set n).
Proof.
  intros Hset Hc. unfold assign_value.
  destruct (defined field) as [v|]; [destruct (value v) as [b|]|]; try done.
  destruct Hc as (?&?&?&?&?&?&?&?). destruct (Hset b n) as (?&?&?&?&?&?&?&?).
  unfold same_content. split_and!; congruence.
Qed.

Lemma representable_entity_columns (updateDto : UpdateNotificationDto.t) (n : Notification.t) :
  let e := representable_entity updateDto n in
  same_content n e
  /\ Notification.updated_at e = Notification.updated_at n
  /\ Notification.status e
     = requested_status (UpdateNotificationDto.status updateDto) (Notification.status n)
  /\ Notification.external_id e
     = requested_text (UpdateNotificationDto.external_id updateDto) (Notification.external_id n)
  /\ Notification.error_message e
     = requested_text (UpdateNotificationDto.error_message updateDto)
         (Notification.error_message n)
  /\ Notification.retry_count e
     = requested_retry_count (UpdateNotificationDto.retry_count updateDto)
         (Notification.retry_count n)
  /\ Notification.sent_at e
     = requested_timestamp (UpdateNotificationDto.sent_at updateDto) (Notification.sent_at n)
  /\ Notification.delivered_at e
     = requested_timestamp (UpdateNotificationDto.delivered_at updateDto)
         (Notification.delivered_at n)
  /\ Notification.opened_at e
     = requested_timestamp (UpdateNotificationDto.opened_at updateDto)
         (Notification.opened_at n)
  /\ Notification.clicked_at e
     = requested_timestamp (UpdateNotificationDto.clicked_at updateDto)
         (Notification.clicked_at n).
Proof.
  intros e. subst e. unfold representable_entity. split_and!.
  - repeat (apply same_content_assign_value; [try (by intros ? []); by intros [] [] |]).
    by repeat split.
  - by do 8 other_column.
  - do 7 other_column. unfold assign_value.
    by destruct (UpdateNotificationDto.status updateDto) as [| |[]].
  - do 6 other_column. this_column (@id (option string)).
    do 1 other_column. by destruct (UpdateNotificationDto.external_id updateDto).
  - do 5 other_column. this_column (@id (option string)).
    do 2 other_column. by destruct (UpdateNotificationDto.error_message updateDto).
  - do 4 other_column. this_column (@id Z). do 3 other_column.
    by destruct (UpdateNotificationDto.retry_count updateDto).
  - do 3 other_column. this_column (@id (option Z)). do 4 other_column.
    by destruct (UpdateNotificationDto.sent_at updateDto) as [| |[]].
  - do 2 other_column. this_column (@id (option Z)). do 5 other_column.
    by destruct (UpdateNotificationDto.delivered_at updateDto) as [| |[]].
  - do 1 other_column. this_column (@id (option Z)). do 6 other_column.
    by destruct (UpdateNotificationDto.opened_at updateDto) as [| |[]].
  - this_column (@id (option Z)). do 7 other_column.
    by destruct (UpdateNotificationDto.clicked_at updateDto) as [| |[]].
Qed.


Lemma unassignable_timestamp (field : Field DateString) :
  unassignable field (fun v => Some <$> new_Date v) = refused_timestamp field.
Proof. by destruct field as [| |[]]. Qed.

Lemma refused_retry_count_spec (field : Field Q) (old : Z) :
  refused_retry_count field old
  = unassignable field (fun v => v ≫= whole_number)
    || negb (bool_decide (requested_retry_count field old = old)
             || int_column (requested_retry_count field old)).
Proof.
  destruct field as [| |x]; cbn.
  - by rewrite bool_decide_eq_true_2.
  - done.
  - unfold unassignable. cbn. destruct (whole_number x); [done|]. done.
Qed.

Lemma refused_text_spec (fits : string -> bool) (field : Field string) (old : option string) :
  refused_text fits field old
  = negb (bool_decide (requested_text field old = old)
          || from_option fits true (requested_text field old)).
Proof.
  destruct field as [| |s]; cbn; [|by rewrite orb_true_r|done].
  by rewrite bool_decide_eq_true_2.
Qed.

Lemma update_refused_spec (updateDto : UpdateNotificationDto.t) (n : Notification.t) :
  update_refused updateDto n
  = unrepresentable updateDto
    || negb (update_accepted n (representable_entity updateDto n)).
Proof.
  unfold update_refused, unrepresentable, update_accepted.
  destruct (representable_entity_columns updateDto n)
    as (_ & _ & _ & -> & -> & -> & _).
  rewrite refused_retry_count_spec, !refused_text_spec, !unassignable_timestamp.
  generalize (unassignable (UpdateNotificationDto.retry_count updateDto)
                (fun v => v ≫= whole_number)).
  generalize (bool_decide
                (requested_retry_count (UpdateNotificationDto.retry_count updateDto)
                   (Notification.retry_count n) = Notification.retry_count n)
              || int_column
                   (requested_retry_count (UpdateNotificationDto.retry_count updateDto)
                      (Notification.retry_count n))).
  generalize (bool_decide
                (requested_text (UpdateNotificationDto.external_id updateDto)
                   (Notification.external_id n) = Notification.external_id n)
              || from_option (varchar_column 255) true
                   (requested_text (UpdateNotificationDto.external_id updateDto)
                      (Notification.external_id n))).
  generalize (bool_decide
                (requested_text (UpdateNotificationDto.error_message updateDto)
                   (Notification.error_message n) = Notification.error_message n)
              || from_option text_column true
                   (requested_text (UpdateNotificationDto.error_message updateDto)
                      (Notification.error_message n))).
  generalize (refused_timestamp (UpdateNotificationDto.sent_at updateDto)).
  generalize (refused_timestamp (UpdateNotificationDto.delivered_at updateDto)).
  generalize (refused_timestamp (UpdateNotificationDto.opened_at updateDto)).
  generalize (refused_timestamp (UpdateNotificationDto.clicked_at updateDto)).
  by intros [] [] [] [] [] [] [] [].
Qed.

(** What [updateNotification] does to a stored notification. *)
Lemma updateNotification_run
    (notificationId : string) (updateDto : UpdateNotificationDto.t) (w : World)
    (n : Notification.t) :
  stored_notification w notificationId = Some n ->
  if update_refused updateDto n
  then updateNotification notificationId updateDto w = (inl QueryFailedError, w)
  else exists s w',
      updateNotification notificationId updateDto w
      = (inr (transformNotificationToDto s), w')
      /\ stored_notification w' notificationId = Some s
      /\ same_but_updated_at (representable_entity updateDto n) s
      /\ (forall k, k <> notificationId -> notifications w' !! k = notifications w !! k)
      /\ users w' = users w /\ timers w' = timers w /\ clock w' = clock w.
Proof.
  intros Hn. pose proof (stored_notification_id _ _ _ Hn) as Hid.
  unfold updateNotification, bind. rewrite findOne_stored, Hn.
  rewrite update_refused_spec, assigned_entity_total.
  destruct (unrepresentable updateDto); [done|]. cbn [orb].
  destruct (representable_entity_columns updateDto n) as ((Hid' & _) & _).
  rewrite Hid in Hid'.
  destruct (update_accepted n (representable_entity updateDto n)) eqn:Hacc; cbn [negb].
  - destruct (save_stored _ w notificationId Hid')
      as (s & w' & Hsave & Hst & Hs & Hframe & Hu & Ht & Hc); [by rewrite Hn|].
    rewrite Hsave. by exists s, w'.
  - by rewrite (save_refused _ n w notificationId Hid' Hn Hacc).
Qed.

(** ** Status updates *)

(** C1, as the specification states it, fails: a delivered notification is
    set back to pending by a status update, which returns normally.
    The record is created by [createNotification] and brought to
    delivered by two updates along edges of the state machine. *)
Lemma updateNotification_demotes_delivered :
  let w1 := after (createNotification (example_create "A" EMAIL))
              (example_world ["A"] (fun _ => 1000)) in
  let w2 := after (updateNotification "0" (status_update SENT)) w1 in
  let w3 := after (updateNotification "0" (status_update DELIVERED)) w2 in
  Notification.status <$> stored_notification w3 "0" = Some DELIVERED
  /\ spec_delivery_edge DELIVERED PENDING = false
  /\ (fun r => Notification.status (NotificationResponseDto.notification r))
       <$> returned (updateNotification "0" (status_update PENDING) w3) = Some PENDING
  /\ Notification.status
       <$> stored_notification (after (updateNotification "0" (status_update PENDING)) w3) "0"
     = Some PENDING.
Proof. vm_compute. repeat split; reflexivity. Qed.

(** C1, amended. [updateNotification] does not consult the state machine:
    on an unknown id it throws the not-found exception and leaves the
    world as it was. On a stored notification it either returns, and
    then the stored status is the requested one when the request carries
    a status, whatever the status was before, and the old one when it
    carries none or null, and no other row is touched; or the database
    refuses the row, and then the world is left as it was. The database
    refuses no request but one with a [retry_count] that is null, not a
    whole number, or new and out of the range of the int column, a new
    [external_id] of more than 255 characters, a new text with a zero
    character, or a date string that gives no timestamp. A request that
    carries only a status is never refused: every status can be set from
    every status. *)
Theorem updateNotification_sets_requested_status
    (notificationId : string) (updateDto : UpdateNotificationDto.t) (w : World) :
  match stored_notification w notificationId with
  | None =>
      updateNotification notificationId updateDto w
      = (inl (NotFoundException "Notification not found"), w)
  | Some n =>
      (updateNotification notificationId updateDto w = (inl QueryFailedError, w)
       \/ exists r w' n',
            updateNotification notificationId updateDto w = (inr r, w')
            /\ stored_notification w' notificationId = Some n'
            /\ Notification.status n'
               = requested_status (UpdateNotificationDto.status updateDto)
                   (Notification.status n)
            /\ (UpdateNotificationDto.status updateDto <> Null ->
                  Notification.status (NotificationResponseDto.notification r)
                  = Notification.status n')
            /\ (forall k, k <> notificationId ->
                  notifications w' !! k = notifications w !! k))
      /\ (update_refused updateDto n = false ->
            exists r w', updateNotification notificationId updateDto w = (inr r, w'))
      /\ (forall s,
            exists r w' n',
              updateNotification notificationId (status_update s) w = (inr r, w')
              /\ stored_notification w' notificationId = Some n'
              /\ Notification.status n' = s)
  end.
Proof.
  destruct (stored_notification w notificationId) as [n|] eqn:Hn.
  - assert (forall dto s,
              same_but_updated_at (representable_entity dto n) s ->
              Notification.status s
              = requested_status (UpdateNotificationDto.status dto) (Notification.status n))
      as Hstatus.
    { intros dto s Hs.
      destruct (representable_entity_columns dto n) as (_ & _ & <- & _).
      destruct Hs as [->|[t ->]]; [done|]. by destruct (representable_entity dto n). }
    split_and!.
    + pose proof (updateNotification_run notificationId updateDto w n Hn) as Hrun.
      destruct (update_refused updateDto n); [by left|]. right.
      destruct Hrun as (s & w' & Hrun & Hst & Hs & Hframe & _).
      exists (transformNotificationToDto s), w', s. split_and!; try done.
      by eapply Hstatus.
    + intros Hacc.
      pose proof (updateNotification_run notificationId updateDto w n Hn) as Hrun.
      rewrite Hacc in Hrun. destruct Hrun as (s & w' & Hrun & _). by eexists _, _.
    + intros s0.
      pose proof (updateNotification_run notificationId (status_update s0) w n Hn) as Hrun.
      change (update_refused (status_update s0) n) with false in Hrun.
      destruct Hrun as (s & w' & Hrun & Hst & Hs & _).
      exists (transformNotificationToDto s), w', s. split_and!; try done.
      by rewrite (Hstatus (status_update s0) s Hs).
  - unfold updateNotification, bind. by rewrite findOne_stored, Hn.
Qed.

(** A [retry_count] beyond the int column passes the validation of the
    request and is refused by the database: nothing is written. *)
Example updateNotification_refuses_out_of_range :
  let w1 := after (createNotification (example_create "A" EMAIL))
              (example_world ["A"] (fun _ => 1000)) in
  updateNotification "0" (retry_count_update 2147483648) w1 = (inl QueryFailedError, w1).
Proof. vm_compute. reflexivity. Qed.

(** ** Access by recipient *)

(** C10. A caller whose user id is not the recipient's cannot read, mark
    as read or delete a stored notification: each of the three scoped
    calls throws its not-found exception and leaves the world as it was.
    A user id is a uuid, hence not the empty string, which
    [getNotificationById] and [deleteNotification] take as no caller. *)
Theorem scoped_access_is_isolated
    (w : World) (notificationId userId : string) (n : Notification.t)
    (Hstored : stored_notification w notificationId = Some n)
    (Huuid : userId <> "")
    (Hother : userId <> Notification.recipient_id n) :
  getNotificationById notificationId (Some userId) w
  = (inl (NotFoundException "Notification not found or access denied"), w)
  /\ markAsRead notificationId userId w
     = (inl (NotFoundException "In-app notification not found"), w)
  /\ deleteNotification notificationId (Some userId) w
     = (inl (NotFoundException "Notification not found or access denied"), w).
Proof.
  assert (owned_by (Some userId) n = false) as Hown.
  { unfold owned_by, truthy. rewrite bool_decide_eq_true_2 by done.
    apply bool_decide_eq_false_2. congruence. }
  assert (in_app_of userId n = false) as Happ.
  { unfold in_app_of. rewrite (bool_decide_eq_false_2 (_ = userId)) by congruence. done. }
  unfold getNotificationById, markAsRead, deleteNotification, bind.
  rewrite !findOne_stored, Hstored, Hown, Happ. done.
Qed.

Lemma scoped_access_is_isolated_witness :
  let w := after (createNotification (example_create "A" IN_APP))
             (example_world ["A"; "B"] (fun _ => 1000)) in
  getNotificationById "0" (Some "B") w
  = (inl (NotFoundException "Notification not found or access denied"), w)
  /\ markAsRead "0" "B" w
     = (inl (NotFoundException "In-app notification not found"), w)
  /\ deleteNotification "0" (Some "B") w
     = (inl (NotFoundException "Notification not found or access denied"), w).
Proof.
  eapply (scoped_access_is_isolated _ "0" "B").
  - vm_compute. reflexivity.
  - done.
  - vm_compute. done.
Defined.

(** ** Read tracking *)

Lemma in_app_of_set_updated_at (u : string) (t : Z) (n : Notification.t) :
  in_app_of u (Notification.set_updated_at t n) = in_app_of u n.
Proof. by destruct n. Qed.

Lemma in_app_of_set_opened_at (u : string) (o : option Z) (n : Notification.t) :
  in_app_of u (Notification.set_opened_at o n) = in_app_of u n.
Proof. by destruct n. Qed.

(** C5. [markAsRead] throws the not-found exception, leaving the world as
    it was, unless the id is that of an in-app notification of the
    caller. On such a notification it returns normally: [opened_at] of
    the returned and stored record is the old value when there was one
    (and then nothing is written) and the clock reading of the call
    otherwise. A second call right after returns the same record, hence
    the same [opened_at], and writes nothing. *)
Theorem markAsRead_first_write_wins (notificationId userId : string) (w : World) :
  match stored_notification w notificationId with
  | Some n =>
      if in_app_of userId n then
        exists r w',
          markAsRead notificationId userId w = (inr r, w')
          /\ stored_notification w' notificationId
             = Some (NotificationResponseDto.notification r)
          /\ Notification.opened_at (NotificationResponseDto.notification r)
             = Some (default (clock w (clock_reads w)) (Notification.opened_at n))
          /\ (is_Some (Notification.opened_at n) -> w' = w)
          /\ markAsRead notificationId userId w' = (inr r, w')
      else
        markAsRead notificationId userId w
        = (inl (NotFoundException "In-app notification not found"), w)
  | None =>
      markAsRead notificationId userId w
      = (inl (NotFoundException "In-app notification not found"), w)
  end.
Proof.
  unfold markAsRead at 1 3 4. unfold bind. rewrite findOne_stored.
  destruct (stored_notification w notificationId) as [n|] eqn:Hn; [|done].
  destruct (in_app_of userId n) eqn:Happ; [|done].
  pose proof (stored_notification_id _ _ _ Hn) as Hid.
  destruct (Notification.opened_at n) as [t|] eqn:Hopen.
  - exists (transformNotificationToDto n), w. split_and!; try done.
    unfold markAsRead, bind. rewrite findOne_stored, Hn, Happ, Hopen. done.
  - unfold Date_now at 1.
    set (now := clock w (clock_reads w)).
    set (w1 := set_clock_reads _ w).
    destruct (save_stored (Notification.set_opened_at (Some now) n) w1 notificationId)
      as (s & w' & Hsave & Hst & Hs & _).
    { by destruct n. }
    { change (stored_notification w1 notificationId) with (stored_notification w notificationId).
      rewrite Hn. by apply update_accepted_same_columns; destruct n. }
    rewrite Hsave. exists (transformNotificationToDto s), w'.
    assert (Notification.opened_at s = Some now) as Hos.
    { destruct Hs as [->|[t ->]]; by destruct n. }
    split_and!; try done.
    unfold markAsRead, bind. rewrite findOne_stored, Hst.
    assert (in_app_of userId s = true) as ->.
    { destruct Hs as [->|[t ->]];
        by rewrite ?in_app_of_set_updated_at, in_app_of_set_opened_at. }
    by rewrite Hos.
Qed.

(** Two calls in a row on an unread in-app notification: the second
    leaves the timestamp of the first although the clock has moved. *)
Example markAsRead_twice :
  let w1 := after (createNotification (example_create "A" IN_APP))
              (example_world ["A"] (fun i => 1000 + Z.of_nat i)) in
  let w2 := after (markAsRead "0" "A") w1 in
  (fun r => Notification.opened_at (NotificationResponseDto.notification r))
    <$> returned (markAsRead "0" "A" w1) = Some (Some 1001)
  /\ (fun r => Notification.opened_at (NotificationResponseDto.notification r))
       <$> returned (markAsRead "0" "A" w2) = Some (Some 1001)
  /\ clock w2 (clock_reads w2) = 1003.
Proof. vm_compute. repeat split; reflexivity. Qed.

(** ** Statistics *)

Lemma reduce_counts_lookup_acc (f : string -> Z) (l : list string) (acc : gmap string Z) (k : string) :
  foldl (fun acc stat => <[stat.1 := stat.2]> acc) acc ((fun k => (k, f k)) <$> l) !! k
  = if decide (k ∈ l) then Some (f k) else acc !! k.
Proof.
  revert acc. induction l as [|a l IH]; intros acc.
  - destruct (decide (k ∈ [])) as [H|H]; [by apply elem_of_nil in H|done].
  - rewrite fmap_cons. cbn [foldl]. rewrite IH. destruct (decide (k ∈ l)) as [Hin|Hnin].
    + rewrite decide_True; [done|]. by right.
    + destruct (decide (k = a)) as [->|Hne].
      * rewrite decide_True by left. by rewrite lookup_insert_eq.
      * rewrite decide_False. { by rewrite lookup_insert_ne. }
        intros [?|?]%elem_of_cons; done.
Qed.

Lemma or_zero_Some z : or_zero (Some z) = z.
Proof. unfold or_zero. by case_decide. Qed.

Lemma filter_none {A} (P : A -> Prop) `{!forall x, Decision (P x)} (l : list A) :
  (forall x, x ∈ l -> ~ P x) -> filter P l = [].
Proof.
  induction l as [|a l IH]; intros Hall; [done|].
  rewrite filter_cons_False by (apply Hall; left). apply IH. intros x Hx. apply Hall. by right.
Qed.

Lemma group_by_count_lookup (key : Notification.t -> string) (rows : list Notification.t)
    (k : string) :
  or_zero (reduce_counts (group_by_count key rows) !! k)
  = Z.of_nat (length (filter (fun n => key n = k) rows)).
Proof.
  unfold group_by_count, reduce_counts.
  rewrite (reduce_counts_lookup_acc
             (fun k => Z.of_nat (length (filter (fun n => key n = k) rows)))).
  case_decide as Hin.
  - apply or_zero_Some.
  - rewrite lookup_empty. cbn [or_zero].
    rewrite elem_of_remove_dups in Hin.
    rewrite filter_none; [done|].
    intros n Hn <-. apply Hin. apply list_elem_of_fmap. by exists n.
Qed.

Lemma status_value_inj (s1 s2 : NotificationStatus) :
  status_value s1 = status_value s2 -> s1 = s2.
Proof. by destruct s1, s2. Qed.

Lemma by_status_lookup (rows : list Notification.t) (s : NotificationStatus) :
  or_zero (reduce_counts
             (group_by_count (fun n => status_value (Notification.status n)) rows)
           !! status_value s)
  = count_rows (has_status s) rows.
Proof.
  rewrite group_by_count_lookup. unfold count_rows. do 2 f_equal.
  apply list_filter_iff. intros n. unfold has_status.
  rewrite bool_decide_eq_true. split; [apply status_value_inj | by intros ->].
Qed.






(** No record at all: every rate is 0. *)
Example stats_of_empty_store :
  (fun s => (NotificationStats.total_notifications s,
             NotificationStats.delivery_rate s,
             NotificationStats.open_rate s,
             NotificationStats.click_rate s))
    <$> returned (getNotificationStats None (example_world ["A"] (fun _ => 1000)))
  = Some (0, 0%float, 0%float, 0%float).
Proof. vm_compute. reflexivity. Qed.

(** The scenario of the specification: one notification, sent and then
    confirmed delivered, gives a delivery rate of 100. *)
Example stats_after_delivery :
  let w1 := after (createNotification (example_create "A" EMAIL))
              (example_world ["A"] (fun _ => 1000)) in
  let w2 := after (updateNotification "0" (status_update SENT)) w1 in
  let w3 := after (updateNotification "0" (status_update DELIVERED)) w2 in
  NotificationStats.delivery_rate <$> returned (getNotificationStats None w3)
  = Some 100%float.
Proof. vm_compute. reflexivity. Qed.

(** The rounding is that of doubles: for 23 delivered and 137 failed
    notifications the percentage is 14.375, the double the source
    computes lies just below it, and the rate comes out as the double of
    14.37, not of 14.38. *)
Example rate_of_23_in_160 :
  spec_round2 (spec_rate 23 160) = (js_number 1437 / 100)%float
  /\ PrimFloat.ltb (js_number 23 / js_number 160 * 100 * 100) (js_number 14375 / 10)
     = true.
Proof. vm_compute. split; reflexivity. Qed.

(** ** Bulk dispatch *)

Lemma find_In_ids (ids : list string) (w : World) :
  exists recipients,
    userRepository_find_In ids w = (inr recipients, w)
    /\ User.id <$> recipients = found_ids ids w.
Proof.
  eexists. split; [reflexivity|]. unfold found_ids.
  induction (map_to_list (users w)) as [|[k u] l IH]; [done|].
  rewrite fmap_cons, !filter_cons. cbn [fst]. case_decide; [|exact IH].
  rewrite !fmap_cons. cbn. f_equal. exact IH.
Qed.

Lemma found_ids_NoDup ids w : NoDup (found_ids ids w).
Proof. apply NoDup_filter, NoDup_fst_map_to_list. Qed.

Lemma elem_of_found_ids ids w k :
  k ∈ found_ids ids w <-> k ∈ ids /\ is_Some (users w !! k).
Proof.
  unfold found_ids. rewrite list_elem_of_filter, list_elem_of_fmap.
  split.
  - intros [Hin [[k' u] [-> Hu]]]. split; [done|]. apply elem_of_map_to_list in Hu. by eexists.
  - intros [Hin [u Hu]]. split; [done|]. exists (k, u). split; [done|]. by apply elem_of_map_to_list.
Qed.

Lemma filter_ext_elem {A : Type} (P1 P2 : A -> Prop)
    `{!forall x, Decision (P1 x), !forall x, Decision (P2 x)} (l : list A) :
  (forall x, x ∈ l -> P1 x <-> P2 x) -> filter P1 l = filter P2 l.
Proof.
  induction l as [|a l IH]; intros Hext; [done|].
  rewrite !filter_cons.
  rewrite IH by (intros x Hx; apply Hext; by right).
  apply decide_ext. apply Hext. left.
Qed.

Lemma failed_ids (ids : list string) (w : World) :
  filter (fun id => id ∉ found_ids ids w) ids = filter (fun id => users w !! id = None) ids.
Proof.
  apply filter_ext_elem. intros id Hid. rewrite elem_of_found_ids.
  rewrite eq_None_not_Some. tauto.
Qed.

(** The loop of [createBulkNotifications]: the entity of the [i]-th found
    recipient carries the [i]-th clock reading of the loop. *)
Lemma mapM_bulk_entity (bulkDto : BulkNotificationDto.t) (l : list string) (w : World) :
  mapM (bulk_entity bulkDto) l w
  = (inr (imap (fun i rid =>
                  bulk_notification bulkDto rid (clock w (clock_reads w + i)%nat)) l),
     set_clock_reads (clock_reads w + length l)%nat w).
Proof.
  revert w. induction l as [|rid l IH]; intros w.
  - cbn. rewrite Nat.add_0_r. by destruct w.
  - cbn [mapM]. unfold bind at 1. unfold bulk_entity at 1. unfold bind at 1.
    unfold Date_now at 1. cbn [ret]. unfold bind at 1. rewrite IH. unfold ret.
    cbn [imap]. rewrite Nat.add_0_r. f_equal.
    + do 2 f_equal. apply imap_ext. intros i x _. cbn. do 2 f_equal. lia.
    + cbn. unfold set_clock_reads. cbn. f_equal. lia.
Qed.

Lemma mapM_insert (l : list Notification.t) (w : World) :
  exists saved w',
    mapM notificationRepository_insert l w = (inr saved, w')
    /\ Forall2 inserted l saved
    /\ NoDup (Notification.id <$> saved)
    /\ (forall s, s ∈ saved ->
          notifications w !! Notification.id s = None
          /\ stored_notification w' (Notification.id s) = Some s)
    /\ (forall k, is_Some (notifications w !! k) ->
          notifications w' !! k = notifications w !! k)
    /\ (forall k, is_Some (notifications w' !! k) ->
          is_Some (notifications w !! k) \/ k ∈ Notification.id <$> saved)
    /\ users w' = users w /\ timers w' = timers w.
Proof.
  revert w. induction l as [|n l IH]; intros w.
  - exists [], w. split_and!; try done.
    + constructor.
    + intros s Hs. by apply elem_of_nil in Hs.
    + intros k Hk. by left.
  - cbn [mapM]. unfold bind at 1. unfold notificationRepository_insert at 1. cbv zeta.
    set (k := fresh (dom (notifications w))).
    set (s := Notification.set_id k _).
    set (w1 := set_clock_reads _ _).
    destruct (IH w1) as (saved & w' & Hrun & Hins & Hnd & Hnew & Hold & Hdom & Hu & Ht).
    unfold bind. rewrite Hrun. cbn [ret].
    exists (s :: saved), w'. split; [done|].
    assert (notifications w1 !! k = Some s) as Hk by (subst w1; cbn; apply lookup_insert_eq).
    assert (notifications w !! k = None) as Hfresh by apply fresh_key_unused.
    assert (Notification.id s = k) as Hids by done.
    split_and!.
    + constructor; [|done]. by eexists _, _.
    + rewrite fmap_cons. constructor; [|done]. rewrite Hids.
      intros (s' & Hs' & Hin)%list_elem_of_fmap.
      destruct (Hnew s' Hin) as [Hnone _]. rewrite <- Hs', Hk in Hnone. done.
    + intros s' [->|Hin]%elem_of_cons.
      * split; [by rewrite Hids|]. unfold stored_notification.
        rewrite Hids, Hold by (rewrite Hk; by eexists). rewrite Hk. cbn. done.
      * destruct (Hnew s' Hin) as [Hnone Hst]. split; [|done].
        subst w1. cbn in Hnone. apply lookup_insert_None in Hnone. tauto.
    + intros k' Hk'. rewrite Hold.
      * subst w1. cbn. apply lookup_insert_ne. intros <-. rewrite Hfresh in Hk'. by destruct Hk'.
      * subst w1. cbn. destruct (decide (k = k')) as [<-|Hne].
        -- rewrite lookup_insert_eq. by eexists.
        -- by rewrite lookup_insert_ne.
    + intros k' Hk'. destruct (Hdom k' Hk') as [Hw1|Hin].
      * subst w1. cbn in Hw1. destruct (decide (k = k')) as [<-|Hne].
        -- right. rewrite fmap_cons, Hids. left.
        -- left. by rewrite lookup_insert_ne in Hw1.
      * right. rewrite fmap_cons. by right.
    + by rewrite Hu.
    + by rewrite Ht.
Qed.

Lemma forEach_processNotificationAsync (l : list Notification.t) (w : World) :
  exists w',
    forEach (fun n => processNotificationAsync (Notification.id n)) l w = (inr tt, w')
    /\ notifications w' = notifications w /\ users w' = users w
    /\ clock w' = clock w /\ clock_reads w' = clock_reads w.
Proof.
  revert w. induction l as [|n l IH]; intros w.
  - by exists w.
  - cbn [forEach]. unfold bind, processNotificationAsync, setTimeout.
    destruct (IH (set_timers (timers w ++ [DeliveryAttempt (Notification.id n)]) w))
      as (w' & Hrun & ? & ? & ? & ?).
    unfold processNotificationAsync, setTimeout in Hrun. rewrite Hrun.
    by exists w'.
Qed.

Lemma inserted_columns (n s : Notification.t) :
  inserted n s ->
  Notification.recipient_id s = Notification.recipient_id n
  /\ Notification.payload s = Notification.payload n
  /\ Notification.status s = Notification.status n
  /\ Notification.retry_count s = Notification.retry_count n.
Proof. intros (k & t & ->). by destruct n. Qed.

(** What a bulk dispatch does: it always returns; the recipients of its
    records are the requested ids found in the user table, once each; the
    [i]-th record carries the [i]-th clock reading of the loop in its
    [bulk_id], is pending, has never been retried and is a new row; the
    failed recipients are the requested ids that are not in the user
    table; the rows that were there are untouched. *)
Lemma createBulkNotifications_run (bulkDto : BulkNotificationDto.t) (w : World) :
  exists res w',
    createBulkNotifications bulkDto w = (inr res, w')
    /\ Notification.recipient_id <$> created res
       = found_ids (BulkNotificationDto.recipient_ids bulkDto) w
    /\ (forall i n, created res !! i = Some n ->
          Notification.payload n !! "bulk_id"
          = Some (JString ("bulk_" +:+ pretty (clock w (clock_reads w + i)%nat)))
          /\ Notification.status n = PENDING
          /\ Notification.retry_count n = 0
          /\ notifications w !! Notification.id n = None
          /\ stored_notification w' (Notification.id n) = Some n)
    /\ NoDup (Notification.id <$> created res)
    /\ BulkResult.failed_recipients res
       = filter (fun id => users w !! id = None) (BulkNotificationDto.recipient_ids bulkDto)
    /\ BulkResult.total_created res = Z.of_nat (length (created res))
    /\ (forall k, is_Some (notifications w !! k) ->
          notifications w' !! k = notifications w !! k).
Proof.
  unfold createBulkNotifications.
  destruct (find_In_ids (BulkNotificationDto.recipient_ids bulkDto) w)
    as (recipients & Hfind & Hids).
  unfold bind at 1. rewrite Hfind, Hids.
  set (found := found_ids _ w).
  unfold bind at 1. rewrite mapM_bulk_entity.
  set (entities := imap _ found).
  set (w1 := set_clock_reads _ w).
  destruct (mapM_insert entities w1)
    as (saved & w2 & Hins & Hall & Hnd & Hnew & Hold & _ & Hu & _).
  unfold bind at 1. rewrite Hins.
  destruct (forEach_processNotificationAsync saved w2) as (w3 & Hfor & Hn3 & _).
  unfold bind at 1. rewrite Hfor.
  eexists _, w3. split; [reflexivity|].
  assert (created
            {| BulkResult.notifications := transformNotificationToDto <$> saved;
               BulkResult.total_created := Z.of_nat (length saved);
               BulkResult.failed_recipients :=
                 filter (fun id => id ∉ found) (BulkNotificationDto.recipient_ids bulkDto) |}
          = saved) as ->.
  { unfold created. cbn. rewrite <- list_fmap_compose. apply list_fmap_id. }
  cbn [BulkResult.failed_recipients BulkResult.total_created].
  split_and!.
  - transitivity (Notification.recipient_id <$> entities).
    + symmetry. clear -Hall. induction Hall as [|n s l l' Hns _ IH]; [done|].
      rewrite !fmap_cons, IH. f_equal. by apply inserted_columns in Hns as [-> _].
    + subst entities. clear. generalize (clock_reads w). induction found as [|x l IH]; intros r; [done|].
      cbn [imap]. rewrite fmap_cons. cbn. f_equal.
      rewrite <- (IH (S r)) at 2. f_equal. apply imap_ext. intros i y _. cbn. do 2 f_equal. lia.
  - intros i s Hi.
    destruct (Forall2_lookup_r _ _ _ _ _ Hall Hi) as (n & Hn & Hns).
    subst entities. rewrite list_lookup_imap in Hn.
    destruct (found !! i) as [rid|]; [|done]. cbn in Hn. injection Hn as <-.
    apply inserted_columns in Hns as (_ & Hp & Hst & Hrc).
    rewrite Hp, Hst, Hrc.
    destruct (Hnew s) as [Hnone Hstored]. { by eapply list_elem_of_lookup_2. }
    split_and!; try done.
    + cbn. by rewrite lookup_insert_eq.
    + unfold stored_notification. rewrite Hn3. exact Hstored.
  - done.
  - apply failed_ids.
  - done.
  - intros k Hk. rewrite Hn3. by apply Hold.
Qed.

Lemma count_of_NoDup_fmap {A B : Type} `{EqDecision B} (f : A -> B) (l : list A) (x : B) :
  NoDup (f <$> l) ->
  length (filter (fun a => f a = x) l) = if decide (x ∈ f <$> l) then 1%nat else 0%nat.
Proof.
  induction l as [|a l IH]; intros Hnd.
  - by rewrite decide_False by apply not_elem_of_nil.
  - rewrite fmap_cons in Hnd. apply NoDup_cons in Hnd as [Hnotin Hnd].
    rewrite filter_cons, fmap_cons. specialize (IH Hnd).
    destruct (decide (f a = x)) as [<-|Hne].
    + rewrite decide_True by left. cbn. rewrite IH. by rewrite decide_False.
    + rewrite IH. apply decide_ext. rewrite elem_of_cons.
      split; [by right | intros [?|?]; [congruence | done]].
Qed.

(** C9, amended. A bulk dispatch creates its records from the users found
    in the user table, not from the entries of the request: a recipient
    id gets exactly one record when it occurs in the request, however
    often, and exists, and none otherwise. The records are new rows
    under keys of their own. *)
Theorem createBulkNotifications_one_record_per_found_recipient
    (bulkDto : BulkNotificationDto.t) (w : World) :
  exists res w',
    createBulkNotifications bulkDto w = (inr res, w')
    /\ (forall id,
          records_for id res
          = if decide (id ∈ BulkNotificationDto.recipient_ids bulkDto
                       /\ is_Some (users w !! id))
            then 1%nat else 0%nat)
    /\ (forall n, n ∈ created res ->
          notifications w !! Notification.id n = None
          /\ stored_notification w' (Notification.id n) = Some n)
    /\ NoDup (Notification.id <$> created res).
Proof.
  destruct (createBulkNotifications_run bulkDto w)
    as (res & w' & Hrun & Hrec & Heach & Hnd & _).
  exists res, w'. split; [done|]. split_and!; [|
    by intros n [i Hi]%list_elem_of_lookup_1; destruct (Heach i n Hi) as (_ & _ & _ & ? & ?) |done].
  intros id. unfold records_for.
  rewrite count_of_NoDup_fmap by (rewrite Hrec; apply found_ids_NoDup).
  rewrite Hrec. apply decide_ext. apply elem_of_found_ids.
Qed.

(** C9, as the specification states it, fails: the existing recipient A
    named twice in one request gets one record, not two. *)
Lemma createBulkNotifications_repeated_recipient_once :
  (fun res => (BulkResult.total_created res, records_for "A" res,
               BulkResult.failed_recipients res))
    <$> returned (createBulkNotifications (example_bulk ["A"; "A"])
                    (example_world ["A"] (fun _ => 1000)))
  = Some (1, 1%nat, []).
Proof. vm_compute. reflexivity. Qed.

(** C3. The request of the specification, recipients A, B and C of which
    B does not exist: two records are created, one for A and one for C,
    and B is reported as failed, as the claim says. But the clock is read
    once per record, and when it advances between the two readings the
    two records of the batch carry different [bulk_id]s. *)
Theorem createBulkNotifications_bulk_id_differs_within_batch :
  (fun res => (BulkResult.total_created res, records_for "A" res, records_for "B" res,
               records_for "C" res, BulkResult.failed_recipients res, bulk_ids res))
    <$> returned (createBulkNotifications (example_bulk ["A"; "B"; "C"])
                    (example_world ["A"; "C"] ticking_clock))
  = Some (2, 1%nat, 0%nat, 1%nat, ["B"],
          [Some (JString "bulk_1000"); Some (JString "bulk_1001")]).
Proof. vm_compute. reflexivity. Qed.

(** When the clock does not advance during the loop, every record of the
    batch carries the same [bulk_id]. *)
Lemma createBulkNotifications_bulk_id_shared_on_still_clock
    (bulkDto : BulkNotificationDto.t) (w : World) (now : Z) :
  (forall i, clock w (clock_reads w + i)%nat = now) ->
  exists res w',
    createBulkNotifications bulkDto w = (inr res, w')
    /\ Forall (fun b => b = Some (JString ("bulk_" +:+ pretty now))) (bulk_ids res).
Proof.
  intros Hstill.
  destruct (createBulkNotifications_run bulkDto w) as (res & w' & Hrun & _ & Heach & _).
  exists res, w'. split; [done|].
  apply Forall_forall. intros b (n & -> & [i Hi]%list_elem_of_lookup_1)%list_elem_of_fmap.
  destruct (Heach i n Hi) as [-> _]. by rewrite Hstill.
Qed.

(** ** The retry counter *)

Lemma keeps_retry_counts_refl (w : World) : keeps_retry_counts w w.
Proof. intros k n Hn. exists n. split; [done|lia]. Qed.

Lemma keeps_retry_counts_trans (w1 w2 w3 : World) :
  keeps_retry_counts w1 w2 -> keeps_retry_counts w2 w3 -> keeps_retry_counts w1 w3.
Proof.
  intros H12 H23 k n Hn. destruct (H12 k n Hn) as (n2 & Hn2 & Hle2).
  destruct (H23 k n2 Hn2) as (n3 & Hn3 & Hle3). exists n3. split; [done|lia].
Qed.

Lemma keeps_retry_counts_same_rows (w w' : World) :
  notifications w' = notifications w -> keeps_retry_counts w w'.
Proof.
  intros Heq k n Hn. exists n. unfold stored_notification in *. rewrite Heq. split; [done|lia].
Qed.

Lemma keeps_retry_counts_new_rows (w w' : World) :
  (forall k, is_Some (notifications w !! k) -> notifications w' !! k = notifications w !! k) ->
  keeps_retry_counts w w'.
Proof.
  intros Hold k n Hn. exists n. split; [|lia]. unfold stored_notification in *.
  rewrite Hold; [done|]. destruct (notifications w !! k); [by eexists|done].
Qed.

(** Saving, over a loaded entity [n0], an entity [n] whose [retry_count]
    is not lower. *)
Lemma keeps_retry_counts_save (n0 n : Notification.t) (w0 w : World) (k : string) :
  notifications w = notifications w0 ->
  stored_notification w0 k = Some n0 ->
  Notification.id n = k ->
  Notification.retry_count n0 <= Notification.retry_count n ->
  keeps_retry_counts w0 (after (notificationRepository_save n) w).
Proof.
  intros Hrows Hn0 Hid Hle k' m Hm.
  destruct (save_cases n w) as [Hsave|(s & w' & Hsave & Hst & Hs & Hframe)];
    unfold after; rewrite Hsave; cbn [snd].
  { exists m. split; [|lia]. unfold stored_notification in *. by rewrite Hrows. }
  rewrite Hid in Hst, Hframe.
  destruct (decide (k' = k)) as [->|Hne].
  - exists s. split; [done|]. rewrite Hn0 in Hm. injection Hm as <-.
    destruct Hs as [->|[t ->]]; [done|]. by destruct n.
  - exists m. split; [|lia]. unfold stored_notification in *.
    by rewrite Hframe, Hrows.
Qed.

Lemma createNotification_keeps_retry_counts (createDto : CreateNotificationDto.t) (w : World) :
  keeps_retry_counts w (after (createNotification createDto) w).
Proof.
  unfold createNotification, after, bind, userRepository_findOne.
  destruct (users w !! _) as [u|]; [|apply keeps_retry_counts_refl].
  apply keeps_retry_counts_new_rows. intros k Hk. cbn.
  apply lookup_insert_ne. intros <-. rewrite fresh_key_unused in Hk. by destruct Hk.
Qed.

Lemma createBulkNotifications_keeps_retry_counts (bulkDto : BulkNotificationDto.t) (w : World) :
  keeps_retry_counts w (after (createBulkNotifications bulkDto) w).
Proof.
  destruct (createBulkNotifications_run bulkDto w) as (res & w' & Hrun & _ & _ & _ & _ & _ & Hold).
  unfold after. rewrite Hrun. by apply keeps_retry_counts_new_rows.
Qed.

Lemma updateNotification_keeps_retry_counts
    (notificationId : string) (updateDto : UpdateNotificationDto.t) (w : World) :
  UpdateNotificationDto.retry_count updateDto = Undefined ->
  keeps_retry_counts w (after (updateNotification notificationId updateDto) w).
Proof.
  intros Hnone. unfold updateNotification, after, bind. rewrite findOne_stored.
  destruct (stored_notification w notificationId) as [n|] eqn:Hn;
    [|apply keeps_retry_counts_refl].
  pose proof (stored_notification_id _ _ _ Hn) as Hid.
  rewrite assigned_entity_total.
  destruct (unrepresentable updateDto); [apply keeps_retry_counts_refl|].
  destruct (representable_entity_columns updateDto n)
    as ((Hid8 & _) & _ & _ & _ & _ & Hrc8 & _).
  rewrite Hnone in Hrc8. cbn in Hrc8. rewrite Hid in Hid8.
  set (n8 := representable_entity updateDto n) in *.
  pose proof (keeps_retry_counts_save n n8 w w notificationId eq_refl Hn Hid8 ltac:(lia))
    as Hkeep.
  unfold after in Hkeep.
  destruct (notificationRepository_save n8 w) as [[e|s] w']; exact Hkeep.
Qed.

Lemma retryNotification_keeps_retry_counts (notificationId : string) (w : World) :
  keeps_retry_counts w (after (retryNotification notificationId) w).
Proof.
  unfold retryNotification, after, bind. rewrite findOne_stored.
  destruct (stored_notification w notificationId) as [n|] eqn:Hn;
    [|apply keeps_retry_counts_refl].
  case_decide; [apply keeps_retry_counts_refl|].
  pose proof (stored_notification_id _ _ _ Hn) as Hid.
  set (n' := Notification.set_error_message None _).
  assert (Notification.id n' = notificationId
          /\ Notification.retry_count n' = Notification.retry_count n + 1) as [Hid' Hrc'].
  { by destruct n. }
  pose proof (keeps_retry_counts_save n n' w w notificationId eq_refl Hn Hid' ltac:(lia))
    as Hkeep.
  unfold after in Hkeep.
  destruct (notificationRepository_save n' w) as [[e|s] w']; [exact Hkeep|].
  eapply keeps_retry_counts_trans; [exact Hkeep|]. by apply keeps_retry_counts_same_rows.
Qed.

Lemma markAsRead_keeps_retry_counts (notificationId userId : string) (w : World) :
  keeps_retry_counts w (after (markAsRead notificationId userId) w).
Proof.
  unfold markAsRead, after, bind. rewrite findOne_stored.
  destruct (stored_notification w notificationId) as [n|] eqn:Hn;
    [|apply keeps_retry_counts_refl].
  destruct (in_app_of userId n); [|apply keeps_retry_counts_refl].
  destruct (Notification.opened_at n) as [t|] eqn:Hopen; [apply keeps_retry_counts_refl|].
  pose proof (stored_notification_id _ _ _ Hn) as Hid.
  unfold Date_now at 1.
  set (n' := Notification.set_opened_at _ n).
  set (w1 := set_clock_reads _ w).
  assert (Notification.id n' = notificationId
          /\ Notification.retry_count n' = Notification.retry_count n) as [Hid' Hrc'].
  { by destruct n. }
  pose proof (keeps_retry_counts_save n n' w w1 notificationId eq_refl Hn Hid' ltac:(lia))
    as Hkeep.
  unfold after in Hkeep.
  destruct (notificationRepository_save n' w1) as [[e|s] w']; exact Hkeep.
Qed.

Lemma markAllAsRead_keeps_retry_counts (userId : string) (w : World) :
  keeps_retry_counts w (after (markAllAsRead userId) w).
Proof.
  intros k n Hn. unfold markAllAsRead, after, bind, Date_now, notificationRepository_update.
  cbn. unfold stored_notification in *. cbn.
  rewrite map_lookup_imap. destruct (notifications w !! k) as [row|]; [|done].
  cbn in *. injection Hn as <-.
  destruct (in_app_of userId (Notification.set_id k row) && _).
  - eexists. split; [done|]. destruct row; cbn; lia.
  - eexists. split; [done|]. lia.
Qed.

Lemma run_operation_keeps_retry_counts (op : Operation) (w : World) :
  carries_retry_count op = false ->
  keeps_retry_counts w (run_operation w op).
Proof.
  destruct op as [d|d|k d|k|k u|u]; cbn [run_operation carries_retry_count]; intros Hop.
  - apply createNotification_keeps_retry_counts.
  - apply createBulkNotifications_keeps_retry_counts.
  - apply updateNotification_keeps_retry_counts.
    apply bool_decide_eq_false in Hop.
    destruct (UpdateNotificationDto.retry_count d); [done| |]; destruct Hop; by eexists.
  - apply retryNotification_keeps_retry_counts.
  - apply markAsRead_keeps_retry_counts.
  - apply markAllAsRead_keeps_retry_counts.
Qed.

Lemma run_operations_keep_retry_counts (ops : list Operation) (w : World) :
  Forall (fun op => carries_retry_count op = false) ops ->
  keeps_retry_counts w (run_operations ops w).
Proof.
  intros Hops. revert w. induction Hops as [|op ops Hop _ IH]; intros w.
  - apply keeps_retry_counts_refl.
  - cbn. eapply keeps_retry_counts_trans; [|apply IH].
    by apply run_operation_keeps_retry_counts.
Qed.

Lemma createNotification_retry_count_zero
    (createDto : CreateNotificationDto.t) (w w' : World) (r : NotificationResponseDto.t) :
  createNotification createDto w = (inr r, w') ->
  Notification.retry_count (NotificationResponseDto.notification r) = 0.
Proof.
  unfold createNotification, bind, userRepository_findOne.
  destruct (users w !! _) as [u|]; [|done]. cbn. by intros [= <- _].
Qed.

Lemma retryNotification_retry_count_succ
    (notificationId : string) (w w' : World) (n : Notification.t)
    (r : NotificationResponseDto.t) :
  stored_notification w notificationId = Some n ->
  retryNotification notificationId w = (inr r, w') ->
  Notification.retry_count (NotificationResponseDto.notification r)
  = Notification.retry_count n + 1.
Proof.
  intros Hn. unfold retryNotification, bind. rewrite findOne_stored, Hn.
  case_decide; [done|].
  pose proof (stored_notification_id _ _ _ Hn) as Hid.
  set (n' := Notification.set_error_message None _).
  destruct (save_cases n' w) as [Hsave|(s & w1 & Hsave & _ & Hs & _)];
    rewrite Hsave; [done|].
  cbn. intros [= <- _]. cbn.
  destruct Hs as [->|[t ->]]; by destruct n.
Qed.

(** C8, amended. Over every sequence of create, bulk create, retry,
    markAsRead, markAllAsRead and update operations in which no update
    request carries a [retry_count] of its own, every stored notification
    is still stored afterwards and its [retry_count] is not lower than
    before. A created record, single or bulk, starts at 0, and a retry
    that returns has raised the count by exactly 1. *)
Theorem retry_count_non_decreasing
    (ops : list Operation) (w : World) (k : string) (n : Notification.t)
    (Hops : Forall (fun op => carries_retry_count op = false) ops)
    (Hstored : stored_notification w k = Some n) :
  (exists n',
     stored_notification (run_operations ops w) k = Some n'
     /\ Notification.retry_count n <= Notification.retry_count n')
  /\ (forall createDto r w',
        createNotification createDto w = (inr r, w') ->
        Notification.retry_count (NotificationResponseDto.notification r) = 0)
  /\ (forall bulkDto res w' m,
        createBulkNotifications bulkDto w = (inr res, w') ->
        m ∈ created res -> Notification.retry_count m = 0)
  /\ (forall r w',
        retryNotification k w = (inr r, w') ->
        Notification.retry_count (NotificationResponseDto.notification r)
        = Notification.retry_count n + 1).
Proof.
  split_and!.
  - by apply run_operations_keep_retry_counts.
  - intros createDto r w'. apply createNotification_retry_count_zero.
  - intros bulkDto res w' m Hrun [i Hi]%list_elem_of_lookup_1.
    destruct (createBulkNotifications_run bulkDto w) as (res0 & w0 & Hrun0 & _ & Heach & _).
    rewrite Hrun in Hrun0. injection Hrun0 as <- <-.
    by destruct (Heach i m Hi) as (_ & _ & ? & _).
  - intros r w'. by apply retryNotification_retry_count_succ.
Qed.

(** C8, as the specification states it, fails: an update request that
    carries [retry_count] overwrites the stored count, here from 2 (after
    two failures and two retries) down to 0. *)
Lemma retry_count_lowered_by_update :
  let w1 := after (createNotification (example_create "A" IN_APP))
              (example_world ["A"] (fun _ => 1000)) in
  let w2 := run_operations example_operations w1 in
  carries_retry_count (OpUpdate "0" (retry_count_update 0)) = true
  /\ Notification.retry_count <$> stored_notification w2 "0" = Some 2
  /\ Notification.retry_count
       <$> stored_notification (run_operation w2 (OpUpdate "0" (retry_count_update 0))) "0"
     = Some 0.
Proof. vm_compute. repeat split; reflexivity. Qed.

Lemma retry_count_non_decreasing_witness :
  let w1 := after (createNotification (example_create "A" IN_APP))
              (example_world ["A"] (fun _ => 1000)) in
  exists n,
    stored_notification w1 "0" = Some n
    /\ exists n',
         stored_notification (run_operations example_operations w1) "0" = Some n'
         /\ Notification.retry_count n <= Notification.retry_count n'.
Proof.
  eexists. split.
  { vm_compute. reflexivity. }
  refine (proj1 (retry_count_non_decreasing example_operations _ "0" _ _ _)).
  - repeat constructor.
  - vm_compute. reflexivity.
Defined.

(** * Further properties of the service *)

(** ** Rows of the notification table *)

Lemma elem_of_rows_where (cond : Notification.t -> bool) (w : World) (n : Notification.t) :
  n ∈ rows_where cond w
  <-> cond n = true /\ stored_notification w (Notification.id n) = Some n.
Proof.
  unfold rows_where, stored_notification.
  rewrite list_elem_of_filter, list_elem_of_fmap. split.
  - intros [Hc [[k row] [-> Hk]]]. split; [done|]. apply elem_of_map_to_list in Hk.
    cbn. rewrite Hk. cbn. by destruct row.
  - intros [Hc Hst]. split; [done|].
    destruct (notifications w !! Notification.id n) as [row|] eqn:Hrow; [|done].
    exists (Notification.id n, row). split; [by injection Hst|].
    by apply elem_of_map_to_list.
Qed.

Lemma rows_where_nil (cond : Notification.t -> bool) (w : World) :
  (forall k n, stored_notification w k = Some n -> cond n = false) ->
  rows_where cond w = [].
Proof.
  intros Hnone. destruct (rows_where cond w) as [|n l] eqn:Hrows; [done|].
  assert (n ∈ rows_where cond w) as Hn by (rewrite Hrows; left).
  apply elem_of_rows_where in Hn as [Hc Hst]. by rewrite (Hnone _ _ Hst) in Hc.
Qed.

Lemma rows_where_NoDup (cond : Notification.t -> bool) (w : World) :
  NoDup (Notification.id <$> rows_where cond w).
Proof.
  unfold rows_where.
  assert (forall l : list (string * Notification.t),
            Notification.id <$> filter (fun n => cond n = true)
              ((fun kv => Notification.set_id kv.1 kv.2) <$> l)
            `sublist_of` l.*1) as Hsub.
  { induction l as [|[k row] l IH]; [done|].
    rewrite fmap_cons, filter_cons. cbn [fst snd]. case_decide.
    - rewrite !fmap_cons. cbn [fst]. replace (Notification.id (Notification.set_id k row)) with k by (by destruct row).
      by apply sublist_skip.
    - rewrite fmap_cons. by apply sublist_cons. }
  eapply sublist_NoDup; [|apply Hsub]. apply NoDup_fst_map_to_list.
Qed.


(** A change of the rows, one by one, that keeps the id and what the
    condition tests: the selected rows are the changed old ones. *)
Lemma rows_where_fmap (cond : Notification.t -> bool)
    (f : Notification.t -> Notification.t) (w w' : World) :
  (forall n, Notification.id (f n) = Notification.id n) ->
  (forall n, cond (f n) = cond n) ->
  (forall k, stored_notification w' k = f <$> stored_notification w k) ->
  rows_where cond w' ≡ₚ f <$> rows_where cond w.
Proof.
  intros Hid Hcond Hrows. apply NoDup_Permutation.
  - eapply NoDup_fmap_1, rows_where_NoDup.
  - apply (NoDup_fmap_1 Notification.id). rewrite <- list_fmap_compose.
    erewrite list_fmap_ext; [apply (rows_where_NoDup cond w)|].
    intros i n _. apply Hid.
  - intros x. rewrite elem_of_rows_where, list_elem_of_fmap. split.
    + intros [Hc Hst]. rewrite Hrows in Hst.
      destruct (stored_notification w (Notification.id x)) as [n|] eqn:Hn; [|done].
      injection Hst as <-. exists n. split; [done|].
      apply elem_of_rows_where. split; [by rewrite <- Hcond|]. by rewrite <- (Hid n).
    + intros (n & -> & [Hc Hst]%elem_of_rows_where).
      split; [by rewrite Hcond|]. by rewrite Hid, Hrows, Hst.
Qed.

(** ** Dispatch and lookup *)

(** X1. A successful single dispatch adds exactly one row, under a key
    that was free, and leaves the user table alone; it queues one
    delivery attempt, for that row; the row has the recipient, type,
    template, subject and content of the request and has never been
    retried or read. Looking the new id up right after, as the recipient
    or without a caller, returns the record the dispatch returned. *)
Theorem createNotification_adds_one_record
    (createDto : CreateNotificationDto.t) (w : World) (u : User.t)
    (Hrecipient : users w !! CreateNotificationDto.recipient_id createDto = Some u) :
  exists r w',
    createNotification createDto w = (inr r, w')
    /\ let n := NotificationResponseDto.notification r in
       notifications w !! Notification.id n = None
       /\ notifications w' = <[Notification.id n := n]> (notifications w)
       /\ users w' = users w
       /\ timers w' = (timers w ++ [DeliveryAttempt (Notification.id n)])%list
       /\ Notification.recipient_id n = CreateNotificationDto.recipient_id createDto
       /\ Notification.type n = CreateNotificationDto.type createDto
       /\ Notification.template n = CreateNotificationDto.template createDto
       /\ Notification.subject n = CreateNotificationDto.subject createDto
       /\ Notification.content n = CreateNotificationDto.content createDto
       /\ Notification.retry_count n = 0
       /\ NotificationResponseDto.is_read r = false
       /\ getNotificationById (Notification.id n)
            (Some (CreateNotificationDto.recipient_id createDto)) w' = (inr r, w')
       /\ getNotificationById (Notification.id n) None w' = (inr r, w').
Proof.
  unfold createNotification, bind, userRepository_findOne. rewrite Hrecipient. cbn [fmap option_fmap option_map].
  eexists _, _. split; [reflexivity|]. cbv zeta.
  cbn [NotificationResponseDto.notification transformNotificationToDto Notification.id
       Notification.set_id].
  split_and!; try done.
  - apply fresh_key_unused.
  - by destruct (CreateNotificationDto.type createDto).
  - unfold getNotificationById, bind. rewrite findOne_stored.
    unfold stored_notification. cbn. rewrite lookup_insert_eq. cbn.
    unfold truthy. case_bool_decide; [by rewrite bool_decide_eq_true_2|done].
  - unfold getNotificationById, bind. rewrite findOne_stored.
    unfold stored_notification. cbn. by rewrite lookup_insert_eq.
Qed.

Lemma createNotification_adds_one_record_witness :
  exists r w',
    createNotification (example_create "A" EMAIL)
      (example_world ["A"] (fun _ => 1000)) = (inr r, w')
    /\ timers w' = [DeliveryAttempt (Notification.id (NotificationResponseDto.notification r))]
    /\ getNotificationById (Notification.id (NotificationResponseDto.notification r))
         (Some "A") w' = (inr r, w').
Proof.
  destruct (createNotification_adds_one_record (example_create "A" EMAIL)
              (example_world ["A"] (fun _ => 1000)) (example_user "A")
              ltac:(vm_compute; reflexivity))
    as (r & w' & Hrun & _ & _ & _ & Ht & _ & _ & _ & _ & _ & _ & _ & Hget & _).
  exists r, w'. split_and!; [exact Hrun | exact Ht | exact Hget].
Defined.

(** ** Deletion *)

(** X2. Deleting a stored notification, as its recipient or without a
    caller, removes that row and nothing else; from then on every
    operation on the id (lookup, a second delete, update, retry, mark as
    read) throws its not-found exception and changes nothing. *)
Theorem deleteNotification_removes_record
    (w : World) (notificationId : string) (userId : option string) (n : Notification.t)
    (Hstored : stored_notification w notificationId = Some n)
    (Hown : owned_by userId n = true) :
  exists w',
    deleteNotification notificationId userId w = (inr tt, w')
    /\ notifications w' = delete notificationId (notifications w)
    /\ users w' = users w
    /\ timers w' = timers w
    /\ (forall u, getNotificationById notificationId u w'
          = (inl (NotFoundException "Notification not found or access denied"), w'))
    /\ (forall u, deleteNotification notificationId u w'
          = (inl (NotFoundException "Notification not found or access denied"), w'))
    /\ (forall updateDto, updateNotification notificationId updateDto w'
          = (inl (NotFoundException "Notification not found"), w'))
    /\ retryNotification notificationId w'
       = (inl (NotFoundException "Notification not found"), w')
    /\ (forall u, markAsRead notificationId u w'
          = (inl (NotFoundException "In-app notification not found"), w')).
Proof.
  pose proof (stored_notification_id _ _ _ Hstored) as Hid.
  unfold deleteNotification at 1. unfold bind. rewrite findOne_stored, Hstored, Hown.
  unfold notificationRepository_remove. rewrite Hid.
  eexists. split; [reflexivity|].
  set (w' := set_notifications _ w).
  assert (stored_notification w' notificationId = None) as Hgone.
  { unfold stored_notification. subst w'. cbn. by rewrite lookup_delete_eq. }
  split_and!; try done; intros;
    unfold getNotificationById, deleteNotification, updateNotification, retryNotification,
      markAsRead, bind; by rewrite findOne_stored, Hgone.
Qed.

Lemma deleteNotification_removes_record_witness :
  let w := after (createNotification (example_create "A" EMAIL))
             (example_world ["A"] (fun _ => 1000)) in
  exists w',
    deleteNotification "0" (Some "A") w = (inr tt, w')
    /\ notifications w' = delete "0" (notifications w)
    /\ users w' = users w
    /\ timers w' = timers w
    /\ (forall u, getNotificationById "0" u w'
          = (inl (NotFoundException "Notification not found or access denied"), w'))
    /\ (forall u, deleteNotification "0" u w'
          = (inl (NotFoundException "Notification not found or access denied"), w'))
    /\ (forall updateDto, updateNotification "0" updateDto w'
          = (inl (NotFoundException "Notification not found"), w'))
    /\ retryNotification "0" w'
       = (inl (NotFoundException "Notification not found"), w')
    /\ (forall u, markAsRead "0" u w'
          = (inl (NotFoundException "In-app notification not found"), w')).
Proof.
  eapply deleteNotification_removes_record.
  - vm_compute. reflexivity.
  - vm_compute. reflexivity.
Defined.

(** ** Marking all as read *)

(** What [markAllAsRead] does to each row. *)
Lemma markAllAsRead_run (userId : string) (w : World) :
  exists w',
    markAllAsRead userId w = (inr (Z.of_nat (length (rows_where (unread_in_app userId) w))), w')
    /\ users w' = users w /\ timers w' = timers w /\ clock w' = clock w
    /\ forall k,
         stored_notification w' k
         = (fun n =>
              if unread_in_app userId n
              then Notification.set_updated_at (clock w (S (clock_reads w)))
                     (Notification.set_opened_at (Some (clock w (clock_reads w))) n)
              else n) <$> stored_notification w k.
Proof.
  unfold markAllAsRead, bind, Date_now, notificationRepository_update. cbn [ret].
  eexists. split.
  { rewrite or_zero_Some. reflexivity. }
  split_and!; try done.
  intros k. unfold stored_notification. cbn. rewrite map_lookup_imap.
  destruct (notifications w !! k) as [row|]; [|done]. cbn.
  change (in_app_of userId (Notification.set_id k row)
          && bool_decide (Notification.opened_at row = None))
    with (unread_in_app userId (Notification.set_id k row)).
  destruct (unread_in_app userId _); [|done]. by destruct row.
Qed.

(** X3. [markAllAsRead] returns the number of unread in-app notifications
    of the user. Each of them gets the clock reading of the call as
    [opened_at]; every other row (read already, of another channel or of
    another user) is left exactly as it was; no row appears or
    disappears, and content, status and retry count of every row are
    kept. Afterwards the user has no unread in-app notification: a
    second call returns 0 and changes no row. *)
Theorem markAllAsRead_marks_every_unread (userId : string) (w : World) :
  exists w',
    markAllAsRead userId w
    = (inr (Z.of_nat (length (rows_where (unread_in_app userId) w))), w')
    /\ (forall k n,
          stored_notification w k = Some n ->
          exists n',
            stored_notification w' k = Some n'
            /\ same_content n n'
            /\ Notification.status n' = Notification.status n
            /\ Notification.retry_count n' = Notification.retry_count n
            /\ (unread_in_app userId n = true ->
                  Notification.opened_at n' = Some (clock w (clock_reads w)))
            /\ (unread_in_app userId n = false -> n' = n)
            /\ unread_in_app userId n' = false)
    /\ (forall k, stored_notification w k = None -> stored_notification w' k = None)
    /\ (exists w'', markAllAsRead userId w' = (inr 0, w'')
                   /\ forall k, stored_notification w'' k = stored_notification w' k).
Proof.
  destruct (markAllAsRead_run userId w) as (w' & Hrun & _ & _ & _ & Hrows).
  assert (forall k n', stored_notification w' k = Some n' -> unread_in_app userId n' = false)
    as Hread.
  { intros k n'. rewrite Hrows. destruct (stored_notification w k) as [n|]; [|done].
    cbn. intros [= <-]. destruct (unread_in_app userId n) eqn:Hun; [|done].
    unfold unread_in_app in *. apply andb_true_iff in Hun as [Happ _].
    apply andb_false_iff. right. by destruct n. }
  exists w'. split; [exact Hrun|]. split_and!.
  - intros k n Hn. rewrite Hrows, Hn. cbn. eexists. split; [reflexivity|].
    destruct (unread_in_app userId n) eqn:Hun.
    + split_and!; try done; try (by destruct n).
      apply (Hread k). rewrite Hrows, Hn. cbn. by rewrite Hun.
    + split_and!; done.
  - intros k Hk. by rewrite Hrows, Hk.
  - destruct (markAllAsRead_run userId w') as (w'' & Hrun' & _ & _ & _ & Hrows').
    exists w''. rewrite Hrun'. rewrite (rows_where_nil _ _ Hread). split; [done|].
    intros k. rewrite Hrows'. destruct (stored_notification w' k) as [n'|] eqn:Hn'; [|done].
    cbn. by rewrite (Hread _ _ Hn').
Qed.

(** X4. On an in-app notification of the caller, [markAsRead] returns a
    record that is read and changes nothing but the read mark (and the
    update timestamp) of that one row: content, status, retry count,
    error message and the other timestamps are kept, and so are all
    other rows, the users and the timers. *)
Theorem markAsRead_touches_only_the_read_mark
    (notificationId userId : string) (w : World) (n : Notification.t)
    (Hstored : stored_notification w notificationId = Some n)
    (Hinapp : in_app_of userId n = true) :
  exists r w',
    markAsRead notificationId userId w = (inr r, w')
    /\ let n' := NotificationResponseDto.notification r in
       stored_notification w' notificationId = Some n'
       /\ NotificationResponseDto.is_read r = true
       /\ same_content n n'
       /\ Notification.status n' = Notification.status n
       /\ Notification.retry_count n' = Notification.retry_count n
       /\ Notification.error_message n' = Notification.error_message n
       /\ Notification.external_id n' = Notification.external_id n
       /\ Notification.sent_at n' = Notification.sent_at n
       /\ Notification.delivered_at n' = Notification.delivered_at n
       /\ Notification.clicked_at n' = Notification.clicked_at n
       /\ (forall k, k <> notificationId -> notifications w' !! k = notifications w !! k)
       /\ users w' = users w /\ timers w' = timers w.
Proof.
  pose proof (stored_notification_id _ _ _ Hstored) as Hid.
  unfold markAsRead, bind. rewrite findOne_stored, Hstored, Hinapp.
  destruct (Notification.opened_at n) as [t|] eqn:Hopen.
  - exists (transformNotificationToDto n), w. split; [done|]. cbn.
    rewrite Hopen. split_and!; done.
  - unfold Date_now at 1.
    set (n1 := Notification.set_opened_at _ n).
    set (w1 := set_clock_reads _ w).
    destruct (save_stored n1 w1 notificationId) as (s & w' & Hsave & Hst & Hs & Hframe & Hu & Ht & _).
    { by destruct n. }
    { change (stored_notification w1 notificationId) with (stored_notification w notificationId).
      rewrite Hstored. by apply update_accepted_same_columns; destruct n. }
    rewrite Hsave. exists (transformNotificationToDto s), w'. split; [done|]. cbn.
    split_and!; try done; destruct Hs as [->|[t ->]]; by destruct n.
Qed.

Lemma markAsRead_touches_only_the_read_mark_witness :
  let w := after (createNotification (example_create "A" IN_APP))
             (example_world ["A"] (fun _ => 1000)) in
  exists n r w',
    stored_notification w "0" = Some n
    /\ markAsRead "0" "A" w = (inr r, w')
    /\ stored_notification w' "0" = Some (NotificationResponseDto.notification r)
    /\ NotificationResponseDto.is_read r = true
    /\ same_content n (NotificationResponseDto.notification r).
Proof.
  eexists. 
  edestruct (markAsRead_touches_only_the_read_mark "0" "A"
               (after (createNotification (example_create "A" IN_APP))
                  (example_world ["A"] (fun _ => 1000))))
    as (r & w' & Hrun & Hst & Hread & Hsame & _).
  - vm_compute. reflexivity.
  - vm_compute. reflexivity.
  - exists r, w'. split_and!; [vm_compute; reflexivity | exact Hrun | exact Hst
                               | exact Hread | exact Hsame].
Defined.

(** ** Content of a record *)

Lemma same_content_refl (n : Notification.t) : same_content n n.
Proof. by repeat split. Qed.

Lemma same_content_trans (n1 n2 n3 : Notification.t) :
  same_content n1 n2 -> same_content n2 n3 -> same_content n1 n3.
Proof.
  unfold same_content. intros (?&?&?&?&?&?&?&?) (?&?&?&?&?&?&?&?).
  split_and!; congruence.
Qed.

Lemma same_content_set_updated_at (t : Z) (n : Notification.t) :
  same_content n (Notification.set_updated_at t n).
Proof. by destruct n. Qed.

Lemma keeps_content_refl (w : World) : keeps_content w w.
Proof. intros k n Hn. exists n. split; [done|apply same_content_refl]. Qed.

Lemma keeps_content_trans (w1 w2 w3 : World) :
  keeps_content w1 w2 -> keeps_content w2 w3 -> keeps_content w1 w3.
Proof.
  intros H12 H23 k n Hn. destruct (H12 k n Hn) as (n2 & Hn2 & Hc2).
  destruct (H23 k n2 Hn2) as (n3 & Hn3 & Hc3). exists n3.
  split; [done|by eapply same_content_trans].
Qed.

Lemma keeps_content_same_rows (w w' : World) :
  notifications w' = notifications w -> keeps_content w w'.
Proof.
  intros Heq k n Hn. exists n. unfold stored_notification in *. rewrite Heq.
  split; [done|apply same_content_refl].
Qed.

Lemma keeps_content_new_rows (w w' : World) :
  (forall k, is_Some (notifications w !! k) -> notifications w' !! k = notifications w !! k) ->
  keeps_content w w'.
Proof.
  intros Hold k n Hn. exists n. split; [|apply same_content_refl].
  unfold stored_notification in *.
  rewrite Hold; [done|]. destruct (notifications w !! k); [by eexists|done].
Qed.

Lemma keeps_content_save (n0 n : Notification.t) (w0 w : World) (k : string) :
  notifications w = notifications w0 ->
  stored_notification w0 k = Some n0 ->
  same_content n0 n ->
  keeps_content w0 (after (notificationRepository_save n) w).
Proof.
  intros Hrows Hn0 Hc k' m Hm.
  assert (Notification.id n = k) as Hid.
  { destruct Hc as [-> _]. by eapply stored_notification_id. }
  destruct (save_cases n w) as [Hsave|(s & w' & Hsave & Hst & Hs & Hframe)];
    unfold after; rewrite Hsave; cbn [snd].
  { exists m. split; [|apply same_content_refl]. unfold stored_notification in *.
    by rewrite Hrows. }
  rewrite Hid in Hst, Hframe.
  destruct (decide (k' = k)) as [->|Hne].
  - exists s. split; [done|]. rewrite Hn0 in Hm. injection Hm as <-.
    destruct Hs as [->|[t ->]]; [done|].
    eapply same_content_trans; [exact Hc|apply same_content_set_updated_at].
  - exists m. split; [|apply same_content_refl]. unfold stored_notification in *.
    by rewrite Hframe, Hrows.
Qed.

Lemma createNotification_keeps_content (createDto : CreateNotificationDto.t) (w : World) :
  keeps_content w (after (createNotification createDto) w).
Proof.
  unfold createNotification, after, bind, userRepository_findOne.
  destruct (users w !! _) as [u|]; [|apply keeps_content_refl].
  apply keeps_content_new_rows. intros k Hk. cbn.
  apply lookup_insert_ne. intros <-. rewrite fresh_key_unused in Hk. by destruct Hk.
Qed.

Lemma createBulkNotifications_keeps_content (bulkDto : BulkNotificationDto.t) (w : World) :
  keeps_content w (after (createBulkNotifications bulkDto) w).
Proof.
  destruct (createBulkNotifications_run bulkDto w) as (res & w' & Hrun & _ & _ & _ & _ & _ & Hold).
  unfold after. rewrite Hrun. by apply keeps_content_new_rows.
Qed.

Lemma updateNotification_keeps_content
    (notificationId : string) (updateDto : UpdateNotificationDto.t) (w : World) :
  keeps_content w (after (updateNotification notificationId updateDto) w).
Proof.
  unfold updateNotification, after, bind. rewrite findOne_stored.
  destruct (stored_notification w notificationId) as [n|] eqn:Hn;
    [|apply keeps_content_refl].
  rewrite assigned_entity_total.
  destruct (unrepresentable updateDto); [apply keeps_content_refl|].
  pose proof (representable_entity_columns updateDto n) as [Hc _]. cbv zeta in Hc.
  set (n8 := representable_entity updateDto n) in *.
  pose proof (keeps_content_save n n8 w w notificationId eq_refl Hn Hc) as Hkeep.
  unfold after in Hkeep.
  destruct (notificationRepository_save n8 w) as [[e|s] w']; exact Hkeep.
Qed.

Lemma retryNotification_keeps_content (notificationId : string) (w : World) :
  keeps_content w (after (retryNotification notificationId) w).
Proof.
  unfold retryNotification, after, bind. rewrite findOne_stored.
  destruct (stored_notification w notificationId) as [n|] eqn:Hn;
    [|apply keeps_content_refl].
  case_decide; [apply keeps_content_refl|].
  set (n' := Notification.set_error_message None _).
  assert (same_content n n') as Hc by (by destruct n).
  pose proof (keeps_content_save n n' w w notificationId eq_refl Hn Hc) as Hkeep.
  unfold after in Hkeep.
  destruct (notificationRepository_save n' w) as [[e|s] w']; [exact Hkeep|].
  eapply keeps_content_trans; [exact Hkeep|]. by apply keeps_content_same_rows.
Qed.

Lemma markAsRead_keeps_content (notificationId userId : string) (w : World) :
  keeps_content w (after (markAsRead notificationId userId) w).
Proof.
  unfold markAsRead, after, bind. rewrite findOne_stored.
  destruct (stored_notification w notificationId) as [n|] eqn:Hn;
    [|apply keeps_content_refl].
  destruct (in_app_of userId n); [|apply keeps_content_refl].
  destruct (Notification.opened_at n) as [t|] eqn:Hopen; [apply keeps_content_refl|].
  unfold Date_now at 1.
  set (n' := Notification.set_opened_at _ n).
  set (w1 := set_clock_reads _ w).
  assert (same_content n n') as Hc by (by destruct n).
  pose proof (keeps_content_save n n' w w1 notificationId eq_refl Hn Hc) as Hkeep.
  unfold after in Hkeep.
  destruct (notificationRepository_save n' w1) as [[e|s] w']; exact Hkeep.
Qed.

Lemma markAllAsRead_keeps_content (userId : string) (w : World) :
  keeps_content w (after (markAllAsRead userId) w).
Proof.
  intros k n Hn. unfold markAllAsRead, after, bind, Date_now, notificationRepository_update.
  cbn. unfold stored_notification in *. cbn.
  rewrite map_lookup_imap. destruct (notifications w !! k) as [row|]; [|done].
  cbn in *. injection Hn as <-.
  destruct (in_app_of userId (Notification.set_id k row) && _).
  - eexists. split; [done|]. by destruct row.
  - eexists. split; [done|]. apply same_content_refl.
Qed.

Lemma run_operations_keep_content (ops : list Operation) (w : World) :
  keeps_content w (run_operations ops w).
Proof.
  revert w. induction ops as [|op ops IH]; intros w.
  - apply keeps_content_refl.
  - cbn. eapply keeps_content_trans; [|apply IH].
    destruct op as [d|d|k d|k|k u|u]; cbn [run_operation].
    + apply createNotification_keeps_content.
    + apply createBulkNotifications_keeps_content.
    + apply updateNotification_keeps_content.
    + apply retryNotification_keeps_content.
    + apply markAsRead_keeps_content.
    + apply markAllAsRead_keeps_content.
Qed.

(** X5. No sequence of create, bulk create, update, retry, markAsRead and
    markAllAsRead operations, whatever the requests and whether they
    return or throw, removes a stored notification or changes its id,
    recipient, type, template, subject, content, payload or creation
    time. *)
Theorem operations_keep_content
    (ops : list Operation) (w : World) (k : string) (n : Notification.t)
    (Hstored : stored_notification w k = Some n) :
  exists n',
    stored_notification (run_operations ops w) k = Some n' /\ same_content n n'.
Proof. by apply run_operations_keep_content. Qed.

Lemma operations_keep_content_witness :
  let w1 := after (createNotification (example_create "A" IN_APP))
              (example_world ["A"] (fun _ => 1000)) in
  exists n,
    stored_notification w1 "0" = Some n
    /\ exists n',
         stored_notification
           (run_operations (example_operations ++ [OpUpdate "0" (retry_count_update 7)]) w1)
           "0" = Some n'
         /\ same_content n n'.
Proof.
  eexists. split.
  { vm_compute. reflexivity. }
  apply operations_keep_content. vm_compute. reflexivity.
Defined.

(** ** The delivery callbacks *)

(** What the outer delivery callback does to a pending record. *)
Lemma runTimer_attempt_pending
    (w : World) (notificationId : string) (n : Notification.t) :
  stored_notification w notificationId = Some n ->
  Notification.status n = PENDING ->
  exists s w',
    runTimer (DeliveryAttempt notificationId) w = (inr tt, w')
    /\ stored_notification w' notificationId = Some s
    /\ same_but_updated_at
         (Notification.set_sent_at (Some (clock w (clock_reads w)))
            (Notification.set_status SENT n)) s
    /\ timers w' = (timers w ++ [DeliveryConfirmation s])%list
    /\ users w' = users w /\ clock w' = clock w
    /\ clock_reads w' = S (S (clock_reads w))
    /\ (forall k, k <> notificationId -> notifications w' !! k = notifications w !! k).
Proof.
  intros Hn Hpending.
  pose proof (stored_notification_id _ _ _ Hn) as Hid.
  unfold runTimer, bind. rewrite findOne_stored, Hn. rewrite decide_True by done.
  unfold Date_now at 1.
  set (n1 := Notification.set_sent_at _ _).
  set (w1 := set_clock_reads _ w).
  unfold notificationRepository_save. replace (Notification.id n1) with notificationId by (by destruct n).
  assert (notifications w1 !! notificationId = notifications w !! notificationId) as Hrow by done.
  unfold stored_notification in Hn.
  destruct (notifications w !! notificationId) as [row|] eqn:Hrow0; [|done].
  rewrite Hrow. cbn in Hn. injection Hn as Hn.
  rewrite decide_False.
  2:{ rewrite Hn. intros Heq. assert (Notification.status n = SENT) as Hs by (rewrite Heq; by destruct n).
      congruence. }
  rewrite update_accepted_same_columns by (subst n1; rewrite <- Hn; by destruct row).
  eexists _, _. split; [reflexivity|]. split_and!; try done.
  - unfold stored_notification. cbn. rewrite lookup_insert_eq. cbn. f_equal.
    subst n1. rewrite <- Hid. by destruct n.
  - right. by eexists.
  - intros k Hk. cbn. by rewrite lookup_insert_ne.
Qed.

(** X6. The delivery attempt queued by a dispatch or a retry acts on a
    pending record only: when the notification is gone or its status is
    anything but pending the callback changes nothing at all; on a
    pending record it sets the status to sent and [sent_at] to the clock
    reading, keeps content and retry count, queues one delivery
    confirmation holding the record as sent, and touches no other row. *)
Theorem runTimer_attempt_acts_only_on_pending (w : World) (notificationId : string) :
  match stored_notification w notificationId with
  | None => runTimer (DeliveryAttempt notificationId) w = (inr tt, w)
  | Some n =>
      if decide (Notification.status n = PENDING) then
        exists s w',
          runTimer (DeliveryAttempt notificationId) w = (inr tt, w')
          /\ stored_notification w' notificationId = Some s
          /\ Notification.status s = SENT
          /\ Notification.sent_at s = Some (clock w (clock_reads w))
          /\ same_content n s
          /\ Notification.retry_count s = Notification.retry_count n
          /\ timers w' = (timers w ++ [DeliveryConfirmation s])%list
          /\ (forall k, k <> notificationId ->
                notifications w' !! k = notifications w !! k)
      else runTimer (DeliveryAttempt notificationId) w = (inr tt, w)
  end.
Proof.
  destruct (stored_notification w notificationId) as [n|] eqn:Hn.
  - case_decide as Hp.
    + destruct (runTimer_attempt_pending w notificationId n Hn Hp)
        as (s & w' & Hrun & Hst & Hs & Ht & _ & _ & _ & Hframe).
      exists s, w'. split_and!; try done; destruct Hs as [->|[t ->]]; by destruct n.
    + unfold runTimer, bind. rewrite findOne_stored, Hn. by rewrite decide_False.
  - unfold runTimer, bind. by rewrite findOne_stored, Hn.
Qed.

(** What the inner delivery callback does with the entity it holds, when
    the database accepts the columns of the entity that differ from the
    row. *)
Lemma runTimer_confirmation
    (w : World) (n stored : Notification.t) :
  stored_notification w (Notification.id n) = Some stored ->
  update_accepted stored n = true ->
  exists s w',
    runTimer (DeliveryConfirmation n) w = (inr tt, w')
    /\ stored_notification w' (Notification.id n) = Some s
    /\ same_but_updated_at
         (Notification.set_delivered_at (Some (clock w (clock_reads w)))
            (Notification.set_status DELIVERED n)) s
    /\ timers w' = timers w /\ users w' = users w
    /\ (forall k, k <> Notification.id n -> notifications w' !! k = notifications w !! k).
Proof.
  intros Hrow Hacc. unfold runTimer, bind. unfold Date_now at 1.
  set (n1 := Notification.set_delivered_at _ _).
  set (w1 := set_clock_reads _ w).
  destruct (save_stored n1 w1 (Notification.id n)) as (s & w' & Hsave & Hst & Hs & Hframe & Hu & Ht & _).
  { by destruct n. }
  { change (stored_notification w1 (Notification.id n))
      with (stored_notification w (Notification.id n)).
    rewrite Hrow, <- Hacc. by destruct n. }
  rewrite Hsave. exists s, w'. split_and!; done.
Qed.

(** X7. The delivery confirmation does not read the record again: it
    writes the entity the attempt handed to it. Whatever the row holds
    when the callback runs, afterwards it is delivered, stamped with the
    clock reading, and every other column (content, retry count, error
    message, external id, the other timestamps) is the one of the held
    entity; other rows are untouched. This is so whenever the database
    accepts the columns of the held entity that differ from the row, as
    it does those of every entity it returned; a held entity with a
    column that does not fit makes the callback fail, after its clock
    reading, with nothing written. *)
Theorem runTimer_confirmation_overwrites (w : World) (n : Notification.t)
    (Hrow : is_Some (notifications w !! Notification.id n)) :
  if from_option (fun stored => update_accepted stored n) true
       (stored_notification w (Notification.id n))
  then
    exists s w',
      runTimer (DeliveryConfirmation n) w = (inr tt, w')
      /\ stored_notification w' (Notification.id n) = Some s
      /\ Notification.status s = DELIVERED
      /\ Notification.delivered_at s = Some (clock w (clock_reads w))
      /\ same_content n s
      /\ Notification.retry_count s = Notification.retry_count n
      /\ Notification.error_message s = Notification.error_message n
      /\ Notification.external_id s = Notification.external_id n
      /\ Notification.sent_at s = Notification.sent_at n
      /\ Notification.opened_at s = Notification.opened_at n
      /\ Notification.clicked_at s = Notification.clicked_at n
      /\ (forall k, k <> Notification.id n -> notifications w' !! k = notifications w !! k)
  else
    runTimer (DeliveryConfirmation n) w
    = (inl QueryFailedError, set_clock_reads (S (clock_reads w)) w).
Proof.
  assert (exists stored, stored_notification w (Notification.id n) = Some stored)
    as [stored Hstored].
  { unfold stored_notification. destruct Hrow as [row ->]. by eexists. }
  rewrite Hstored. cbn [from_option].
  destruct (update_accepted stored n) eqn:Hacc.
  - destruct (runTimer_confirmation w n stored Hstored Hacc)
      as (s & w' & Hrun & Hst & Hs & _ & _ & Hframe).
    exists s, w'. split_and!; try done; destruct Hs as [->|[t ->]]; by destruct n.
  - unfold runTimer, bind. unfold Date_now at 1.
    set (n1 := Notification.set_delivered_at _ _).
    rewrite (save_refused n1 stored _ (Notification.id n)); [done|by destruct n|done|].
    rewrite <- Hacc. by destruct n.
Qed.

Lemma runTimer_confirmation_overwrites_witness :
  let w1 := after (runTimer (DeliveryAttempt "0"))
              (after (createNotification (example_create "A" EMAIL))
                 (example_world ["A"] (fun i => 1000 + Z.of_nat i))) in
  let w2 := after (updateNotification "0" (retry_count_update 3)) w1 in
  exists n s w',
    timers w2 = [DeliveryAttempt "0"; DeliveryConfirmation n]
    /\ Notification.retry_count <$> stored_notification w2 "0" = Some 3
    /\ runTimer (DeliveryConfirmation n) w2 = (inr tt, w')
    /\ stored_notification w' (Notification.id n) = Some s
    /\ Notification.status s = DELIVERED
    /\ Notification.retry_count s = Notification.retry_count n
    /\ Notification.retry_count n = 0.
Proof.
  cbv zeta.
  set (w2 := after (updateNotification "0" (retry_count_update 3)) _).
  eassert (timers w2 = [DeliveryAttempt "0"; DeliveryConfirmation _]) as Ht
    by (vm_compute; reflexivity).
  match type of Ht with
  | _ = [_; DeliveryConfirmation ?n] =>
      pose proof (runTimer_confirmation_overwrites w2 n ltac:(vm_compute; by eexists)) as H;
      replace (from_option (fun stored => update_accepted stored n) true
                 (stored_notification w2 (Notification.id n)))
        with true in H by (vm_compute; reflexivity);
      destruct H as (s & w' & Hrun & Hst & Hd & _ & _ & Hrc & _);
      exists n, s, w'
  end.
  split_and!; [exact Ht | vm_compute; reflexivity
               | exact Hrun | exact Hst | exact Hd | exact Hrc
               | vm_compute; reflexivity].
Defined.

(** What a successful single dispatch leaves behind. *)
Lemma createNotification_run
    (createDto : CreateNotificationDto.t) (w : World) (u : User.t) :
  users w !! CreateNotificationDto.recipient_id createDto = Some u ->
  exists n w',
    createNotification createDto w = (inr (transformNotificationToDto n), w')
    /\ Notification.id n = fresh (dom (notifications w))
    /\ stored_notification w' (Notification.id n) = Some n
    /\ Notification.status n = PENDING
    /\ Notification.retry_count n = 0
    /\ Notification.error_message n = None
    /\ timers w' = (timers w ++ [DeliveryAttempt (Notification.id n)])%list
    /\ clock w' = clock w /\ clock_reads w' = S (clock_reads w).
Proof.
  intros Hrecipient.
  unfold createNotification, bind, userRepository_findOne. rewrite Hrecipient.
  cbn [fmap option_fmap option_map].
  eexists _, _. split; [reflexivity|]. split_and!; try done.
  unfold stored_notification. cbn. by rewrite lookup_insert_eq.
Qed.

(** What a successful retry leaves behind. *)
Lemma retryNotification_run (notificationId : string) (w : World) (n : Notification.t) :
  stored_notification w notificationId = Some n ->
  Notification.status n = FAILED ->
  int_column (Notification.retry_count n + 1) = true ->
  exists s w',
    retryNotification notificationId w = (inr (transformNotificationToDto s), w')
    /\ stored_notification w' notificationId = Some s
    /\ same_but_updated_at
         (Notification.set_error_message None
            (Notification.set_retry_count (Notification.retry_count n + 1)
               (Notification.set_status PENDING n))) s
    /\ timers w' = (timers w ++ [DeliveryAttempt notificationId])%list
    /\ clock w' = clock w.
Proof.
  intros Hn Hf Hfits. pose proof (stored_notification_id _ _ _ Hn) as Hid.
  unfold retryNotification, bind. rewrite findOne_stored, Hn.
  rewrite decide_False by (intros H; by apply H).
  pose proof (retry_entity_accepted n) as Hacc. rewrite Hfits in Hacc.
  set (n' := Notification.set_error_message None _) in *.
  destruct (save_stored n' w notificationId) as (s & w' & Hsave & Hst & Hs & _ & _ & Ht & Hc).
  { by destruct n. }
  { by rewrite Hn. }
  rewrite Hsave. eexists s, _. split; [reflexivity|]. cbn.
  split_and!; try done.
  rewrite Ht. by rewrite (stored_notification_id _ _ _ Hst).
Qed.

(** The two callbacks in a row on a pending record. *)
Lemma delivery_of_pending
    (w : World) (notificationId : string) (n : Notification.t) :
  stored_notification w notificationId = Some n ->
  Notification.status n = PENDING ->
  exists s1 w1 s2 w2,
    runTimer (DeliveryAttempt notificationId) w = (inr tt, w1)
    /\ timers w1 = (timers w ++ [DeliveryConfirmation s1])%list
    /\ runTimer (DeliveryConfirmation s1) w1 = (inr tt, w2)
    /\ timers w2 = timers w1
    /\ stored_notification w2 notificationId = Some s2
    /\ Notification.status s2 = DELIVERED
    /\ Notification.sent_at s2 = Some (clock w (clock_reads w))
    /\ Notification.delivered_at s2 = Some (clock w (S (S (clock_reads w))))
    /\ same_content n s2
    /\ Notification.retry_count s2 = Notification.retry_count n
    /\ Notification.error_message s2 = Notification.error_message n.
Proof.
  intros Hn Hp. pose proof (stored_notification_id _ _ _ Hn) as Hid.
  destruct (runTimer_attempt_pending w notificationId n Hn Hp)
    as (s1 & w1 & Hrun1 & Hst1 & Hs1 & Ht1 & _ & Hc1 & Hr1 & _).
  assert (Notification.id s1 = notificationId) as Hid1.
  { by eapply stored_notification_id. }
  destruct (runTimer_confirmation w1 s1 s1) as (s2 & w2 & Hrun2 & Hst2 & Hs2 & Ht2 & _).
  { by rewrite Hid1. }
  { by apply update_accepted_same_columns. }
  rewrite Hid1 in Hst2. rewrite Hc1, Hr1 in Hs2.
  exists s1, w1, s2, w2. split_and!; try done;
    destruct Hs1 as [->|[t1 ->]], Hs2 as [->|[t2 ->]]; by destruct n.
Qed.

(** X8. Dispatch, then the two queued callbacks with nothing in between:
    the dispatch queues the attempt, the attempt queues the
    confirmation, and after the confirmation the record is delivered,
    with [sent_at] and [delivered_at] the clock readings of the two
    callbacks, the content it was created with and a retry count of 0. *)
Theorem createNotification_then_timers_deliver
    (createDto : CreateNotificationDto.t) (w : World) (u : User.t)
    (Hrecipient : users w !! CreateNotificationDto.recipient_id createDto = Some u) :
  exists r w0 s1 w1 s2 w2,
    createNotification createDto w = (inr r, w0)
    /\ timers w0
       = (timers w
          ++ [DeliveryAttempt (Notification.id (NotificationResponseDto.notification r))])%list
    /\ runTimer (DeliveryAttempt (Notification.id (NotificationResponseDto.notification r))) w0
       = (inr tt, w1)
    /\ timers w1 = (timers w0 ++ [DeliveryConfirmation s1])%list
    /\ runTimer (DeliveryConfirmation s1) w1 = (inr tt, w2)
    /\ stored_notification w2 (Notification.id (NotificationResponseDto.notification r))
       = Some s2
    /\ Notification.status s2 = DELIVERED
    /\ Notification.sent_at s2 = Some (clock w (S (clock_reads w)))
    /\ Notification.delivered_at s2 = Some (clock w (S (S (S (clock_reads w)))))
    /\ same_content (NotificationResponseDto.notification r) s2
    /\ Notification.retry_count s2 = 0.
Proof.
  destruct (createNotification_run createDto w u Hrecipient)
    as (n & w0 & Hrun & _ & Hst & Hp & Hrc & _ & Ht & Hc & Hr).
  destruct (delivery_of_pending w0 (Notification.id n) n Hst Hp)
    as (s1 & w1 & s2 & w2 & Hrun1 & Ht1 & Hrun2 & _ & Hst2 & Hd & Hsent & Hdel & Hsame & Hrc2 & _).
  rewrite Hc, Hr in Hsent, Hdel.
  exists (transformNotificationToDto n), w0, s1, w1, s2, w2.
  cbn [NotificationResponseDto.notification transformNotificationToDto].
  split_and!; try done. by rewrite Hrc2.
Qed.

(** X9. A retried notification goes through the same pipeline: after the
    retry of a failed record whose raised retry count fits the int
    column, and the two callbacks the retry queues, the record is
    delivered, both timestamps are set, the content is unchanged, the
    retry count is one higher than before the retry and the error
    message is null. *)
Theorem retryNotification_then_timers_deliver
    (notificationId : string) (w : World) (n : Notification.t)
    (Hstored : stored_notification w notificationId = Some n)
    (Hfailed : Notification.status n = FAILED)
    (Hfits : int_column (Notification.retry_count n + 1) = true) :
  exists r w0 s1 w1 s2 w2,
    retryNotification notificationId w = (inr r, w0)
    /\ timers w0 = (timers w ++ [DeliveryAttempt notificationId])%list
    /\ runTimer (DeliveryAttempt notificationId) w0 = (inr tt, w1)
    /\ timers w1 = (timers w0 ++ [DeliveryConfirmation s1])%list
    /\ runTimer (DeliveryConfirmation s1) w1 = (inr tt, w2)
    /\ stored_notification w2 notificationId = Some s2
    /\ Notification.status s2 = DELIVERED
    /\ is_Some (Notification.sent_at s2)
    /\ is_Some (Notification.delivered_at s2)
    /\ same_content n s2
    /\ Notification.retry_count s2 = Notification.retry_count n + 1
    /\ Notification.error_message s2 = None.
Proof.
  destruct (retryNotification_run notificationId w n Hstored Hfailed Hfits)
    as (s & w0 & Hrun & Hst & Hs & Ht & _).
  assert (Notification.status s = PENDING) as Hp.
  { destruct Hs as [->|[t ->]]; by destruct n. }
  destruct (delivery_of_pending w0 notificationId s Hst Hp)
    as (s1 & w1 & s2 & w2 & Hrun1 & Ht1 & Hrun2 & _ & Hst2 & Hd & Hsent & Hdel & Hsame & Hrc2 & Herr).
  exists (transformNotificationToDto s), w0, s1, w1, s2, w2.
  split_and!; try done.
  - eapply same_content_trans; [|exact Hsame].
    destruct Hs as [->|[t ->]]; by destruct n.
  - rewrite Hrc2. destruct Hs as [->|[t ->]]; by destruct n.
  - rewrite Herr. destruct Hs as [->|[t ->]]; by destruct n.
Qed.

Lemma createNotification_then_timers_deliver_witness :
  exists r w0 s1 w1 s2 w2,
    createNotification (example_create "A" EMAIL)
      (example_world ["A"] (fun i => 1000 + Z.of_nat i)) = (inr r, w0)
    /\ runTimer (DeliveryAttempt (Notification.id (NotificationResponseDto.notification r))) w0
       = (inr tt, w1)
    /\ runTimer (DeliveryConfirmation s1) w1 = (inr tt, w2)
    /\ stored_notification w2 (Notification.id (NotificationResponseDto.notification r))
       = Some s2
    /\ Notification.status s2 = DELIVERED
    /\ Notification.sent_at s2 = Some 1001
    /\ Notification.delivered_at s2 = Some 1003.
Proof.
  destruct (createNotification_then_timers_deliver (example_create "A" EMAIL)
              (example_world ["A"] (fun i => 1000 + Z.of_nat i)) (example_user "A")
              ltac:(vm_compute; reflexivity))
    as (r & w0 & s1 & w1 & s2 & w2 & Hc & _ & Ha & _ & Hf & Hst & Hd & Hs & Hdel & _).
  exists r, w0, s1, w1, s2, w2.
  split_and!; [exact Hc | exact Ha | exact Hf | exact Hst | exact Hd | exact Hs | exact Hdel].
Defined.

Lemma retryNotification_then_timers_deliver_witness :
  let w := after (updateNotification "0" (status_update FAILED))
             (after (createNotification (example_create "A" EMAIL))
                (example_world ["A"] (fun i => 1000 + Z.of_nat i))) in
  exists n r w0 s1 w1 s2 w2,
    stored_notification w "0" = Some n
    /\ retryNotification "0" w = (inr r, w0)
    /\ runTimer (DeliveryAttempt "0") w0 = (inr tt, w1)
    /\ runTimer (DeliveryConfirmation s1) w1 = (inr tt, w2)
    /\ stored_notification w2 "0" = Some s2
    /\ Notification.status s2 = DELIVERED
    /\ Notification.retry_count s2 = Notification.retry_count n + 1.
Proof.
  eexists.
  edestruct (retryNotification_then_timers_deliver "0"
               (after (updateNotification "0" (status_update FAILED))
                  (after (createNotification (example_create "A" EMAIL))
                     (example_world ["A"] (fun i => 1000 + Z.of_nat i)))))
    as (r & w0 & s1 & w1 & s2 & w2 & Hr & _ & Ha & _ & Hf & Hst & Hd & _ & _ & _ & Hrc & _).
  4:{ exists r, w0, s1, w1, s2, w2.
      split_and!; [vm_compute; reflexivity | exact Hr | exact Ha | exact Hf | exact Hst
                   | exact Hd | exact Hrc]. }
  - vm_compute. reflexivity.
  - vm_compute. reflexivity.
  - vm_compute. reflexivity.
Defined.

(** ** Bulk dispatch: accounting and columns *)

Lemma forEach_processNotificationAsync_timers (l : list Notification.t) (w : World) :
  forEach (fun n => processNotificationAsync (Notification.id n)) l w
  = (inr tt, set_timers (timers w ++ delivery_attempts l)%list w).
Proof.
  revert w. induction l as [|n l IH]; intros w.
  - cbn. rewrite app_nil_r. by destruct w.
  - cbn [forEach]. unfold bind. unfold processNotificationAsync at 1. unfold setTimeout at 1.
    rewrite IH. cbn. by rewrite <- app_assoc.
Qed.

(** A bulk dispatch, entity by entity: the saved records are the entities
    of the loop as the database completed them, and one delivery attempt
    is queued for each. *)
Lemma createBulkNotifications_entities (bulkDto : BulkNotificationDto.t) (w : World) :
  exists res w',
    createBulkNotifications bulkDto w = (inr res, w')
    /\ Forall2 inserted
         (imap (fun i rid =>
                  bulk_notification bulkDto rid (clock w (clock_reads w + i)%nat))
            (found_ids (BulkNotificationDto.recipient_ids bulkDto) w))
         (created res)
    /\ timers w' = (timers w ++ delivery_attempts (created res))%list
    /\ users w' = users w
    /\ (forall k, is_Some (notifications w' !! k) ->
          is_Some (notifications w !! k) \/ k ∈ Notification.id <$> created res).
Proof.
  unfold createBulkNotifications.
  destruct (find_In_ids (BulkNotificationDto.recipient_ids bulkDto) w)
    as (recipients & Hfind & Hids).
  unfold bind at 1. rewrite Hfind, Hids.
  unfold bind at 1. rewrite mapM_bulk_entity.
  set (entities := imap _ _).
  set (w1 := set_clock_reads _ w).
  destruct (mapM_insert entities w1)
    as (saved & w2 & Hins & Hall & _ & _ & _ & Hdom & Hu & Ht).
  unfold bind at 1. rewrite Hins.
  unfold bind at 1. rewrite forEach_processNotificationAsync_timers.
  eexists _, _. split; [reflexivity|].
  unfold created. cbn [BulkResult.notifications].
  rewrite <- list_fmap_compose.
  replace (NotificationResponseDto.notification ∘ transformNotificationToDto <$> saved)
    with saved by (symmetry; apply list_fmap_id).
  split_and!; [done| |done|done]. cbn. by rewrite Ht.
Qed.



(** X11. Every record of a bulk dispatch goes to a requested id that is
    in the user table, has the type, template, subject and content of
    the request, is pending and unread, and carries in its payload the
    requested priority, or normal when none is requested, a [bulk_id] of
    the form bulk_<reading of the clock>, and otherwise exactly the keys
    of the request's payload: [priority] and [bulk_id] of the request's
    payload are overwritten. *)
Theorem createBulkNotifications_record_columns
    (bulkDto : BulkNotificationDto.t) (w : World) :
  exists res w',
    createBulkNotifications bulkDto w = (inr res, w')
    /\ forall n, n ∈ created res ->
         Notification.recipient_id n ∈ BulkNotificationDto.recipient_ids bulkDto
         /\ is_Some (users w !! Notification.recipient_id n)
         /\ Notification.type n = BulkNotificationDto.type bulkDto
         /\ Notification.template n = BulkNotificationDto.template bulkDto
         /\ Notification.subject n = BulkNotificationDto.subject bulkDto
         /\ Notification.content n = BulkNotificationDto.content bulkDto
         /\ Notification.status n = PENDING
         /\ Notification.opened_at n = None
         /\ Notification.payload n !! "priority"
            = Some (JString (priority_value
                               (default NORMAL (BulkNotificationDto.priority bulkDto))))
         /\ (exists t : Z,
               Notification.payload n !! "bulk_id" = Some (JString ("bulk_" +:+ pretty t)))
         /\ (forall k, k <> "priority" -> k <> "bulk_id" ->
               Notification.payload n !! k
               = default ∅ (BulkNotificationDto.payload bulkDto) !! k).
Proof.
  destruct (createBulkNotifications_entities bulkDto w)
    as (res & w' & Hrun & Hall & _).
  exists res, w'. split; [done|].
  intros n [i Hi]%list_elem_of_lookup_1.
  destruct (Forall2_lookup_r _ _ _ _ _ Hall Hi) as (e & He & (k & t & ->)).
  rewrite list_lookup_imap in He.
  destruct (found_ids (BulkNotificationDto.recipient_ids bulkDto) w !! i)
    as [rid|] eqn:Hrid; [|done].
  cbn in He. injection He as <-.
  apply list_elem_of_lookup_2, elem_of_found_ids in Hrid as [Hin Hex].
  cbn. split_and!; try done.
  - by destruct (BulkNotificationDto.type bulkDto).
  - by rewrite lookup_insert_ne, lookup_insert_eq.
  - eexists. by rewrite lookup_insert_eq.
  - intros k' H1 H2. by rewrite !lookup_insert_ne.
Qed.

(** ** Statistics: counts *)

Lemma type_value_inj (t1 t2 : NotificationType) : type_value t1 = type_value t2 -> t1 = t2.
Proof. by destruct t1, t2. Qed.

Lemma count_rows_cons (p : Notification.t -> bool) (n : Notification.t)
    (rows : list Notification.t) :
  count_rows p (n :: rows) = (if p n then 1 else 0) + count_rows p rows.
Proof.
  unfold count_rows. rewrite filter_cons.
  destruct (p n); [rewrite decide_True by done|rewrite decide_False by done]; cbn [length]; lia.
Qed.

Lemma count_rows_by_status (rows : list Notification.t) :
  count_rows (has_status PENDING) rows + count_rows (has_status SENT) rows
  + count_rows (has_status DELIVERED) rows + count_rows (has_status FAILED) rows
  + count_rows (has_status BOUNCED) rows
  = Z.of_nat (length rows).
Proof.
  induction rows as [|n rows IH]; [done|].
  rewrite !count_rows_cons. cbn [length]. unfold has_status at 1 3 5 7 9.
  destruct (Notification.status n); vm_compute bool_decide; lia.
Qed.

(** X12. [getNotificationStats] reads only: the world is returned as it
    was. [total_notifications] is the number of rows in scope; the
    entries of [by_status], [by_type] and [by_template], read with 0 for
    a missing key, are the numbers of rows with that status, type and
    template; the five status counts add up to the total, and
    [failed_notifications] is the count of failed rows. *)
Theorem getNotificationStats_counts (userId : option string) (w : World) :
  exists stats,
    getNotificationStats userId w = (inr stats, w)
    /\ NotificationStats.total_notifications stats
       = Z.of_nat (length (rows_where (owned_by userId) w))
    /\ (forall s,
          or_zero (NotificationStats.by_status stats !! status_value s)
          = count_rows (has_status s) (rows_where (owned_by userId) w))
    /\ (forall t,
          or_zero (NotificationStats.by_type stats !! type_value t)
          = count_rows (fun n => bool_decide (Notification.type n = t))
              (rows_where (owned_by userId) w))
    /\ (forall t,
          or_zero (NotificationStats.by_template stats !! t)
          = count_rows (fun n => bool_decide (Notification.template n = t))
              (rows_where (owned_by userId) w))
    /\ or_zero (NotificationStats.by_status stats !! status_value PENDING)
       + or_zero (NotificationStats.by_status stats !! status_value SENT)
       + or_zero (NotificationStats.by_status stats !! status_value DELIVERED)
       + or_zero (NotificationStats.by_status stats !! status_value FAILED)
       + or_zero (NotificationStats.by_status stats !! status_value BOUNCED)
       = NotificationStats.total_notifications stats
    /\ NotificationStats.failed_notifications stats
       = count_rows (has_status FAILED) (rows_where (owned_by userId) w).
Proof.
  set (rows := rows_where (owned_by userId) w).
  eexists. split.
  { cbv beta iota zeta delta
      [getNotificationStats bind notificationRepository_count grouped_count ret].
    reflexivity. }
  cbn [NotificationStats.total_notifications NotificationStats.by_status
       NotificationStats.by_type NotificationStats.by_template
       NotificationStats.failed_notifications].
  fold rows. split_and!.
  - done.
  - intros s. apply by_status_lookup.
  - intros t. rewrite group_by_count_lookup. unfold count_rows. do 2 f_equal.
    apply list_filter_iff. intros n. rewrite bool_decide_eq_true.
    split; [apply type_value_inj | by intros ->].
  - intros t. rewrite group_by_count_lookup. unfold count_rows. do 2 f_equal.
    apply list_filter_iff. intros n. by rewrite bool_decide_eq_true.
  - rewrite !by_status_lookup. apply count_rows_by_status.
  - apply by_status_lookup.
Qed.







(** ** Updates, column by column *)

(** X14. An update of a stored notification that the database does not
    refuse returns, and each of [external_id], [error_message],
    [retry_count] and the four timestamps afterwards holds the old value
    when the request does not name it and the requested value when it
    does (also when the column was set before). A request can clear a
    column: [null] for [external_id] or [error_message] stores null, and
    [null] for a timestamp stores the epoch. Content is never changed,
    and the returned record is read exactly when [opened_at] is set
    afterwards. *)
Theorem updateNotification_assigns_requested_fields
    (notificationId : string) (updateDto : UpdateNotificationDto.t) (w : World)
    (n : Notification.t)
    (Hstored : stored_notification w notificationId = Some n)
    (Haccepted : update_refused updateDto n = false) :
  exists r w' n',
    updateNotification notificationId updateDto w = (inr r, w')
    /\ stored_notification w' notificationId = Some n'
    /\ (UpdateNotificationDto.status updateDto <> Null ->
          NotificationResponseDto.notification r = n')
    /\ same_content n n'
    /\ Notification.external_id n'
       = requested_text (UpdateNotificationDto.external_id updateDto)
           (Notification.external_id n)
    /\ Notification.error_message n'
       = requested_text (UpdateNotificationDto.error_message updateDto)
           (Notification.error_message n)
    /\ Notification.retry_count n'
       = requested_retry_count (UpdateNotificationDto.retry_count updateDto)
           (Notification.retry_count n)
    /\ Notification.sent_at n'
       = requested_timestamp (UpdateNotificationDto.sent_at updateDto)
           (Notification.sent_at n)
    /\ Notification.delivered_at n'
       = requested_timestamp (UpdateNotificationDto.delivered_at updateDto)
           (Notification.delivered_at n)
    /\ Notification.opened_at n'
       = requested_timestamp (UpdateNotificationDto.opened_at updateDto)
           (Notification.opened_at n)
    /\ Notification.clicked_at n'
       = requested_timestamp (UpdateNotificationDto.clicked_at updateDto)
           (Notification.clicked_at n)
    /\ NotificationResponseDto.is_read r = bool_decide (is_Some (Notification.opened_at n'))
    /\ users w' = users w /\ timers w' = timers w.
Proof.
  pose proof (updateNotification_run notificationId updateDto w n Hstored) as Hrun.
  rewrite Haccepted in Hrun.
  destruct Hrun as (s & w' & Hrun & Hst & Hs & _ & Hu & Ht & _).
  destruct (representable_entity_columns updateDto n)
    as (Hc & _ & _ & He & Hm & Hr & Hs1 & Hd1 & Ho1 & Hk1).
  set (n8 := representable_entity updateDto n) in *.
  assert (Notification.external_id s = Notification.external_id n8
          /\ Notification.error_message s = Notification.error_message n8
          /\ Notification.retry_count s = Notification.retry_count n8
          /\ Notification.sent_at s = Notification.sent_at n8
          /\ Notification.delivered_at s = Notification.delivered_at n8
          /\ Notification.opened_at s = Notification.opened_at n8
          /\ Notification.clicked_at s = Notification.clicked_at n8
          /\ same_content n8 s) as (He' & Hm' & Hr' & Hs1' & Hd1' & Ho1' & Hk1' & Hc8).
  { clearbody n8. destruct Hs as [->|[t ->]]; by destruct n8. }
  exists (transformNotificationToDto s), w', s.
  split_and!; try done; try congruence.
  eapply same_content_trans; [exact Hc|exact Hc8].
Qed.

Lemma updateNotification_assigns_requested_fields_witness :
  let w := after (createNotification (example_create "A" EMAIL))
             (example_world ["A"] (fun _ => 1000)) in
  exists n r w' n',
    stored_notification w "0" = Some n
    /\ updateNotification "0" example_update w = (inr r, w')
    /\ stored_notification w' "0" = Some n'
    /\ same_content n n'
    /\ Notification.retry_count n' = 4
    /\ Notification.error_message n' = None
    /\ Notification.sent_at n' = Some 0.
Proof.
  eexists.
  edestruct (updateNotification_assigns_requested_fields "0" example_update
               (after (createNotification (example_create "A" EMAIL))
                  (example_world ["A"] (fun _ => 1000))))
    as (r & w' & n' & Hrun & Hst & _ & Hsame & _ & Hm & Hrc & Hs & _).
  - vm_compute. reflexivity.
  - vm_compute. reflexivity.
  - exists r, w', n'. split_and!; [vm_compute; reflexivity | exact Hrun | exact Hst
                                   | exact Hsame | exact Hrc | exact Hm | exact Hs].
Defined.

(** ** Listing *)


(** Page 0 of a listing: the offset is negative and the query fails. *)
Example getUserNotifications_page_zero :
  getUserNotifications example_database "A" (example_search 0 20) example_listing_world
  = (inl QueryFailedError, example_listing_world).
Proof. vm_compute. reflexivity. Qed.

(** X16. Whatever the filters, the page and the order, a listing shows a
    user only stored notifications of that user that pass every given
    filter, none of them twice; in particular a status, type or read
    filter holds of every listed record. [total] is the number of all
    stored notifications of the user that pass the filters, and the page
    is never longer than that. The world is returned as it was. The
    database is only asked to return, in some order, the rows it is
    given. *)
Theorem getUserNotifications_lists_own_matching
    (db : Database) (userId : string) (searchDto : NotificationSearchDto.t)
    (w w' : World) (res : UserNotifications.t)
    (Horder : forall f o l, order_by db f o l ≡ₚ l)
    (Hrun : getUserNotifications db userId searchDto w = (inr res, w')) :
  w' = w
  /\ UserNotifications.total res
     = Z.of_nat (length (rows_where (listing_condition db userId searchDto) w))
  /\ Z.of_nat (length (UserNotifications.notifications res)) <= UserNotifications.total res
  /\ NoDup ((fun r => Notification.id (NotificationResponseDto.notification r))
              <$> UserNotifications.notifications res)
  /\ forall r, r ∈ UserNotifications.notifications res ->
       let n := NotificationResponseDto.notification r in
       stored_notification w (Notification.id n) = Some n
       /\ Notification.recipient_id n = userId
       /\ applySearchFilters db searchDto n = true
       /\ (forall s, NotificationSearchDto.status searchDto = Some s ->
             Notification.status n = s)
       /\ (forall t, NotificationSearchDto.type searchDto = Some t ->
             Notification.type n = t)
       /\ (forall b, NotificationSearchDto.is_read searchDto = Some b ->
             NotificationResponseDto.is_read r = b).
Proof.
  unfold getUserNotifications, bind, validateSortField, getManyAndCount in Hrun.
  case_bool_decide as Hin; [|done].
  cbn [ret] in Hrun. case_decide as Hneg; [done|].
  cbn in Hrun. injection Hrun as <- <-.
  set (cond := listing_condition db userId searchDto).
  set (rows := rows_where cond w).
  set (ordered := order_by db _ _ rows).
  set (page := if decide (_ = 0) then _ else _).
  assert (page `sublist_of` ordered) as Hsub.
  { subst page. case_decide; [apply sublist_drop|].
    etrans; [apply sublist_take|apply sublist_drop]. }
  cbn [UserNotifications.total UserNotifications.notifications].
  split_and!; try done.
  - rewrite length_fmap. apply inj_le. etrans; [by apply sublist_length|].
    subst ordered. by rewrite Horder.
  - rewrite <- list_fmap_compose.
    change (_ ∘ transformNotificationToDto) with Notification.id.
    eapply sublist_NoDup; [|by apply fmap_sublist].
    subst ordered. rewrite Horder. apply rows_where_NoDup.
  - intros r (n & -> & Hn)%list_elem_of_fmap. cbv zeta.
    cbn [NotificationResponseDto.notification transformNotificationToDto
         NotificationResponseDto.is_read].
    assert (n ∈ rows) as Hrow.
    { assert (n ∈ ordered) as Ho by (by eapply elem_of_sublist).
      subst ordered. by rewrite Horder in Ho. }
    apply elem_of_rows_where in Hrow as [Hc Hst].
    subst cond. unfold listing_condition in Hc.
    apply andb_true_iff in Hc as [Hu Hf]. apply bool_decide_eq_true in Hu.
    pose proof Hf as Hall. unfold applySearchFilters in Hall.
    rewrite !andb_true_iff in Hall.
    destruct Hall as ((((((Htype & Hstatus) & _) & _) & _) & Hread) & _).
    split_and!; try done.
    + intros s Hs. rewrite Hs in Hstatus. apply bool_decide_eq_true in Hstatus.
      rewrite Hstatus. by destruct s.
    + intros t Ht. rewrite Ht in Htype. apply bool_decide_eq_true in Htype.
      rewrite Htype. by destruct t.
    + intros b Hb. rewrite Hb in Hread. destruct b.
      * exact Hread.
      * apply bool_decide_eq_true in Hread. rewrite Hread.
        apply bool_decide_eq_false_2. by intros [? ?].
Qed.

Lemma getUserNotifications_lists_own_matching_witness :
  exists res,
    getUserNotifications example_database "A" (example_search 1 2) example_listing_world
    = (inr res, example_listing_world)
    /\ UserNotifications.total res
       = Z.of_nat (length (rows_where
                             (listing_condition example_database "A" (example_search 1 2))
                             example_listing_world))
    /\ UserNotifications.total res = 3
    /\ length (UserNotifications.notifications res) = 2%nat.
Proof.
  eexists. split; [vm_compute; reflexivity|]. split_and!.
  - eapply (proj1 (proj2 (getUserNotifications_lists_own_matching
                            example_database "A" (example_search 1 2)
                            example_listing_world example_listing_world _ _ _))).
  - vm_compute. reflexivity.
  - vm_compute. reflexivity.
  Unshelve.
  + intros f o l. reflexivity.
  + vm_compute. reflexivity.
Defined.

Lemma Qceiling_div_bounds (a b : Z) :
  0 < b ->
  (Qceiling (inject_Z a / inject_Z b) - 1) * b < a <= Qceiling (inject_Z a / inject_Z b) * b.
Proof.
  intros Hb.
  set (x := (inject_Z a / inject_Z b)%Q).
  assert (0 < inject_Z b)%Q as Hbq by (rewrite <- (Zlt_Qlt 0); lia).
  assert (x * inject_Z b == inject_Z a)%Q as Hx.
  { subst x. field. lra. }
  pose proof (Qle_ceiling x) as Hle.
  pose proof (Qceiling_lt x) as Hlt.
  split.
  - rewrite Zlt_Qlt, inject_Z_mult, <- Hx.
    apply Qmult_lt_compat_r; [done|]. exact Hlt.
  - rewrite Zle_Qle, inject_Z_mult, <- Hx.
    apply Qmult_le_compat_r; [exact Hle|]. lra.
Qed.

(** X17. For a page and a limit from 1 on, the listing returns the page
    and limit it used, the page holds min(limit, max(0, total - (page -
    1) * limit)) records, [totalPages] is the least number of pages of
    that limit that hold [total] records, and a page beyond [totalPages]
    is empty. *)
Theorem getUserNotifications_pagination
    (db : Database) (userId : string) (searchDto : NotificationSearchDto.t)
    (w w' : World) (res : UserNotifications.t)
    (Horder : forall f o l, order_by db f o l ≡ₚ l)
    (Hpage : 1 <= default 1 (NotificationSearchDto.page searchDto))
    (Hlimit : 1 <= default 20 (NotificationSearchDto.limit searchDto))
    (Hrun : getUserNotifications db userId searchDto w = (inr res, w')) :
  let page := default 1 (NotificationSearchDto.page searchDto) in
  let limit := default 20 (NotificationSearchDto.limit searchDto) in
  UserNotifications.page res = page
  /\ UserNotifications.limit res = limit
  /\ Z.of_nat (length (UserNotifications.notifications res))
     = Z.min limit (Z.max 0 (UserNotifications.total res - (page - 1) * limit))
  /\ (UserNotifications.totalPages res - 1) * limit < UserNotifications.total res
  /\ UserNotifications.total res <= UserNotifications.totalPages res * limit
  /\ (UserNotifications.totalPages res < page -> UserNotifications.notifications res = []).
Proof.
  intros page limit.
  unfold getUserNotifications, bind, validateSortField, getManyAndCount in Hrun.
  case_bool_decide as Hin; [|done].
  cbn [ret] in Hrun. case_decide as Hneg; [done|].
  rewrite (decide_False (P := default 20 (NotificationSearchDto.limit searchDto) = 0)) in Hrun
    by lia.
  cbn in Hrun. injection Hrun as <- <-.
  fold page limit in Hpage, Hlimit |- *.
  set (rows := rows_where (listing_condition db userId searchDto) w).
  set (ordered := order_by db _ _ rows).
  cbn [UserNotifications.total UserNotifications.notifications UserNotifications.page
       UserNotifications.limit UserNotifications.totalPages].
  assert (length ordered = length rows) as Hlen by (subst ordered; by rewrite Horder).
  pose proof (Qceiling_div_bounds (Z.of_nat (length rows)) limit ltac:(lia)) as [Hc1 Hc2].
  assert (Z.of_nat (length (take (Z.to_nat limit) (drop (Z.to_nat ((page - 1) * limit)) ordered)))
          = Z.min limit (Z.max 0 (Z.of_nat (length rows) - (page - 1) * limit))) as Hpg.
  { rewrite length_take, length_drop, Hlen. nia. }
  split_and!; try done.
  - by rewrite length_fmap.
  - intros Hbeyond. apply length_zero_iff_nil. rewrite length_fmap.
    apply Nat2Z.inj. rewrite Hpg. nia.
Qed.

Lemma getUserNotifications_pagination_witness :
  exists res,
    getUserNotifications example_database "A" (example_search 2 2) example_listing_world
    = (inr res, example_listing_world)
    /\ Z.of_nat (length (UserNotifications.notifications res))
       = Z.min 2 (Z.max 0 (UserNotifications.total res - (2 - 1) * 2))
    /\ length (UserNotifications.notifications res) = 1%nat
    /\ UserNotifications.totalPages res = 2.
Proof.
  eexists. split; [vm_compute; reflexivity|]. split_and!.
  - eapply (proj1 (proj2 (proj2 (getUserNotifications_pagination
                                   example_database "A" (example_search 2 2)
                                   example_listing_world example_listing_world _ _ _ _ _)))).
  - vm_compute. reflexivity.
  - vm_compute. reflexivity.
  Unshelve.
  + intros f o l. reflexivity.
  + done.
  + done.
  + vm_compute. reflexivity.
Defined.

(** X18. The [unread_count] of a listing counts every in-app notification
    of the user, read or not: the null condition on [opened_at] is not
    part of the query the ORM sends. So marking all as read does not
    lower it: a listing after [markAllAsRead] reports the same
    [unread_count] as one before. *)
Theorem unread_count_counts_read_notifications_too
    (db : Database) (userId : string) (searchDto : NotificationSearchDto.t)
    (w w' : World) (res : UserNotifications.t)
    (Hrun : getUserNotifications db userId searchDto w = (inr res, w')) :
  UserNotifications.unread_count res
  = Z.of_nat (length (rows_where (in_app_of userId) w))
  /\ exists updated w1 res1,
       markAllAsRead userId w = (inr updated, w1)
       /\ getUserNotifications db userId searchDto w1 = (inr res1, w1)
       /\ UserNotifications.unread_count res1 = UserNotifications.unread_count res.
Proof.
  unfold getUserNotifications, bind, validateSortField, getManyAndCount in Hrun.
  case_bool_decide as Hin; [|done].
  cbn [ret] in Hrun. case_decide as Hneg; [done|].
  cbn in Hrun. injection Hrun as <- <-. cbn [UserNotifications.unread_count].
  change (fun n => bool_decide (Notification.recipient_id n = userId)
                   && bool_decide (Notification.type n = IN_APP))
    with (in_app_of userId).
  split; [done|].
  destruct (markAllAsRead_run userId w) as (w1 & Hrun1 & _ & _ & _ & Hrows).
  eexists _, w1. eexists. split; [exact Hrun1|].
  unfold getUserNotifications, bind, validateSortField, getManyAndCount.
  rewrite bool_decide_eq_true_2 by done. cbn [ret].
  rewrite decide_False by done. cbn.
  split; [reflexivity|]. cbn [UserNotifications.unread_count].
  change (fun n => bool_decide (Notification.recipient_id n = userId)
                   && bool_decide (Notification.type n = IN_APP))
    with (in_app_of userId).
  f_equal.
  match type of Hrows with
  | forall k, _ = ?f <$> _ =>
      assert (forall n, Notification.id (f n) = Notification.id n) as Hid
        by (intros n; cbv beta; case_match; by destruct n);
      assert (forall n, in_app_of userId (f n) = in_app_of userId n) as Hcond
        by (intros n; cbv beta; case_match; by destruct n);
      rewrite (rows_where_fmap (in_app_of userId) f w w1 Hid Hcond Hrows)
  end.
  apply length_fmap.
Qed.

Lemma unread_count_counts_read_notifications_too_witness :
  exists res updated w1 res1,
    getUserNotifications example_database "A" (example_search 1 2) example_listing_world
    = (inr res, example_listing_world)
    /\ UserNotifications.unread_count res = 2
    /\ markAllAsRead "A" example_listing_world = (inr updated, w1)
    /\ updated = 2
    /\ getUserNotifications example_database "A" (example_search 1 2) w1 = (inr res1, w1)
    /\ UserNotifications.unread_count res1 = 2.
Proof.
  eexists.
  edestruct (unread_count_counts_read_notifications_too example_database "A"
               (example_search 1 2) example_listing_world example_listing_world)
    as (Hcount & updated & w1 & res1 & Hmark & Hlist & Hsame).
  - vm_compute. reflexivity.
  - exists updated, w1, res1.
    split_and!; [vm_compute; reflexivity | vm_compute; reflexivity | exact Hmark |
                 | exact Hlist | ].
    + assert (markAllAsRead "A" example_listing_world
              = (inr 2, after (markAllAsRead "A") example_listing_world)) as Hc
        by (vm_compute; reflexivity).
      rewrite Hc in Hmark. by injection Hmark as <- _.
    + rewrite Hsame. vm_compute. reflexivity.
Defined.
